(** * Reliant Windows ERP/CRM prototype: the three estimation subsystems

    A shallow embedding of [summary_generator.py], [price_predictor.py] and
    [customer_segmentation.py], and the properties of the specification that
    were checked against it; then the parts of [app.py] that call them or
    guard them (the access decorators, [login] and [logout], the two JSON
    endpoints, the item rows of the quotation form), with further
    properties read off the code.

    Conventions.
    - A Python [float] is an IEEE-754 binary64 value, [spec_float] with
      [prec = 53] and [emax = 1024].
    - A Python [str] is a [string] whose characters are code points below 256.
    - Code that can raise runs in a state-and-exception monad; [try/except
      Exception] is [try_catch].
    - What lives outside the repository (the transformers hub and pipeline,
      scikit-learn's fitting and clustering, the wall clock, the password
      check, the interpreter's parsing of a string as a number, the outcome
      of a commit) is an argument of the function that uses it. *)

From Stdlib Require Import ZArith QArith Qminmax List String Ascii.
From Stdlib Require Import DecimalString DecimalN SpecFloat Sorted Lia.
From stdpp Require Import gmap strings list.

Local Open Scope string_scope.

(* ===================================================================== *)
(** * Python values shared by the three modules                          *)
(* ===================================================================== *)

(** Where an exception was raised: by a [raise] statement of the repository,
    or inside a library or the interpreter. *)
Inductive raised_by := by_repository | by_library.

(** An exception object: where it was raised, its class name and the text
    [str(e)] gives. *)
Record exn := Exn {
  exn_origin : raised_by;
  exn_class : string;
  exn_msg : string;
}.

(** The outcome of an expression that may raise. *)
Definition result (A : Type) : Type := exn + A.

Definition ok {A} (a : A) : result A := inr a.
Definition raise {A} (e : exn) : result A := inl e.

(** The outcome of a call into a library: whatever it raises was raised
    there. *)
Definition in_library {A} (r : result A) : result A :=
  match r with
  | inl e => inl (Exn by_library (exn_class e) (exn_msg e))
  | inr a => inr a
  end.

Definition rbind {A B} (r : result A) (k : A -> result B) : result B :=
  match r with
  | inl e => inl e
  | inr a => k a
  end.

Module PyFloat.

Local Open Scope Z_scope.

Abbreviation float := spec_float.

Definition prec : Z := 53.
Definition emax : Z := 1024.

Definition fadd : float -> float -> float := SFadd prec emax.
Definition fmul : float -> float -> float := SFmul prec emax.
Definition fdiv : float -> float -> float := SFdiv prec emax.
Definition fneg : float -> float := SFopp.

Definition pos_zero : float := S754_zero false.

Definition is_nan (x : float) : bool :=
  match x with
  | S754_nan => true
  | _ => false
  end.

(** [x >= y] and [x < y] on floats; both are false when an operand is nan. *)
Definition fge (x y : float) : bool := SFleb y x.
Definition flt (x y : float) : bool := SFltb x y.

(** The double nearest to an integer (ties to even); an infinity on
    overflow. *)
Definition of_Z (z : Z) : float := binary_normalize prec emax z 0 false.

(** [float(n)] for an [int] [n]: [OverflowError] when [n] is too large. *)
Definition float_of_int (z : Z) : result float :=
  match of_Z z with
  | S754_infinity _ =>
      raise (Exn by_library "OverflowError" "int too large to convert to float")
  | f => ok f
  end.

(** [int(x)]: truncation toward zero; nan and the infinities raise. *)
Definition py_int (x : float) : result Z :=
  match x with
  | S754_zero _ => ok 0
  | S754_finite s m e =>
      let a := match e with
               | Zneg k => Z.shiftr (Zpos m) (Zpos k)
               | _ => Z.shiftl (Zpos m) e
               end in
      ok (if s then - a else a)
  | S754_nan =>
      raise (Exn by_library "ValueError" "cannot convert float NaN to integer")
  | S754_infinity _ =>
      raise (Exn by_library "OverflowError" "cannot convert float infinity to integer")
  end.

(** The literals of the source, as the doubles the parser reads them to. *)
Definition f0_8 : float := S754_finite false 7205759403792794 (-53).
Definition f0_4 : float := S754_finite false 7205759403792794 (-54).
Definition f0_6 : float := S754_finite false 5404319552844595 (-53).
Definition f0_3 : float := S754_finite false 5404319552844595 (-54).
Definition f0_1 : float := S754_finite false 7205759403792794 (-56).

(** [n / d] rounded to the nearest integer, ties to the even one
    ([0 <= n], [0 < d]). *)
Definition half_even_div (n d : Z) : Z :=
  let q := n / d in
  match 2 * (n mod d) ?= d with
  | Lt => q
  | Gt => q + 1
  | Eq => if Z.even q then q else q + 1
  end.

(** The exact value [m * 2^e] in hundredths, rounded half to even: the
    digits both [format(x, '.2f')] and [round(x, 2)] work from. *)
Definition cents (m : positive) (e : Z) : Z :=
  match e with
  | Zneg k => half_even_div (Zpos m * 100) (2 ^ Zpos k)
  | _ => Zpos m * 2 ^ e * 100
  end.

(** Decimal digits of a non-negative integer. *)
Definition digits (n : Z) : string :=
  NilEmpty.string_of_uint (N.to_uint (Z.to_N n)).

(** Groups of three digits from the right, as the [,] option prints. *)
Fixpoint group3 (rev_digits : list ascii) (i : nat) : list ascii :=
  match rev_digits with
  | [] => []
  | c :: rest =>
      match i, rest with
      | 2%nat, _ :: _ => c :: ","%char :: group3 rest 0
      | _, _ => c :: group3 rest (S i)
      end
  end.

Definition with_commas (s : string) : string :=
  string_of_list_ascii
    (rev (group3 (rev (list_ascii_of_string s)) 0)).

Definition two_digits (n : Z) : string :=
  if n <? 10 then "0" ++ digits n else digits n.

Definition sign_str (s : bool) : string := if s then "-" else EmptyString.

(** [format(x, '.2f')] and, with [grouping], [format(x, ',.2f')]. *)
Definition format_2f (grouping : bool) (x : float) : string :=
  match x with
  | S754_nan => "nan"
  | S754_infinity s => sign_str s ++ "inf"
  | S754_zero s => sign_str s ++ "0.00"
  | S754_finite s m e =>
      let c := cents m e in
      let int_part := digits (c / 100) in
      sign_str s
      ++ (if grouping then with_commas int_part else int_part)
      ++ "." ++ two_digits (c mod 100)
  end.

(** [round(x, 2)]: the double nearest to the half-even decimal rounding of
    the exact value of [x]; nan, infinities and zeros are returned as they
    are. *)
Definition py_round2 (x : float) : float :=
  match x with
  | S754_finite s m e =>
      match cents m e with
      | Zpos c =>
          let '(q, e', l) := SFdiv_core_binary prec emax (Zpos c) 0 100 0 in
          binary_round_aux prec emax s q e' l
      | _ => S754_zero s
      end
  | _ => x
  end.

(** [np.maximum(x, y)], which propagates nan. *)
Definition np_maximum (x y : float) : float :=
  if is_nan x then x else if fge x y then x else y.

(** [np.sum]: the elements are added left to right, from the first one; the
    empty sum is [0.0].  numpy groups the additions of a long array in
    blocks, which can change the last bits of a sum; no property below
    depends on the grouping. *)
Definition np_sum (l : list float) : float :=
  match l with
  | [] => pos_zero
  | x :: rest => fold_left fadd rest x
  end.

(** [np.mean] of a non-empty list. *)
Definition np_mean (l : list float) : float :=
  fdiv (np_sum l) (of_Z (Z.of_nat (length l))).


End PyFloat.

Module PyStr.

(** [str.isspace] on one code point below 256. *)
Definition is_space (c : ascii) : bool :=
  let n := nat_of_ascii c in
  ((9 <=? n)%nat && (n <=? 13)%nat)
  || ((28 <=? n)%nat && (n <=? 32)%nat)
  || (n =? 133)%nat || (n =? 160)%nat.

(** [str.split()] with no separator: the maximal runs of characters that
    are not white space. *)
Fixpoint split_aux (s : string) (cur : string) : list string :=
  match s with
  | EmptyString => if String.eqb cur EmptyString then [] else [cur]
  | String c rest =>
      if is_space c
      then (if String.eqb cur EmptyString then split_aux rest EmptyString
            else cur :: split_aux rest EmptyString)
      else split_aux rest (cur ++ String c EmptyString)
  end.

Definition split (s : string) : list string := split_aux s EmptyString.

Fixpoint lstrip (s : string) : string :=
  match s with
  | String c rest => if is_space c then lstrip rest else s
  | EmptyString => EmptyString
  end.

Definition rev_string (s : string) : string :=
  string_of_list_ascii (rev (list_ascii_of_string s)).

(** [str.strip()]. *)
Definition strip (s : string) : string :=
  rev_string (lstrip (rev_string (lstrip s))).

(** [sep.join(parts)]. *)
Definition join (sep : string) (parts : list string) : string :=
  String.concat sep parts.

Definition lower_char (c : ascii) : ascii :=
  let n := nat_of_ascii c in
  if ((65 <=? n)%nat && (n <=? 90)%nat)
     || ((192 <=? n)%nat && (n <=? 222)%nat && negb (n =? 215)%nat)
  then ascii_of_nat (n + 32) else c.

(** [str.lower()]. *)
Fixpoint lower (s : string) : string :=
  match s with
  | EmptyString => EmptyString
  | String c rest => String (lower_char c) (lower rest)
  end.

(** [needle in hay]. *)
Fixpoint contains (needle hay : string) : bool :=
  String.prefix needle hay
  || match hay with
     | EmptyString => false
     | String _ rest => contains needle rest
     end.

(** [str(n)] for an [int]. *)
Definition of_int (z : Z) : string :=
  if (z <? 0)%Z then "-" ++ PyFloat.digits (- z) else PyFloat.digits z.

End PyStr.

(* ===================================================================== *)
(** * summary_generator.py                                               *)
(* ===================================================================== *)

Module SummaryGenerator.

Import PyFloat.
Local Open Scope Z_scope.

(** ** Inputs *)

(** A width or height as the callers pass it: an [int] or a [float]. *)
Inductive pynum :=
| PyInt (z : Z)
| PyFloat (f : float).

(** One entry of [product_list]: the keys the module reads.  [None] stands
    for a key that is absent or bound to [None], which [dict.get] does not
    tell apart. *)
Record item := Item {
  name : option string;
  category : option string;
  quantity : option Z;
  width_ft : option pynum;
  height_ft : option pynum;
}.

(** ** Module-level configuration, read from the environment at import *)

Record config := Config {
  HF_MODEL : string;
  HF_TOKEN : option string;
  MAX_LEN : Z;
  MIN_LEN : Z;
  NUM_BEAMS : Z;
  NO_REPEAT_NGRAM : Z;
  DO_SAMPLE : bool;
  TOP_P : float;
  TEMPERATURE : float;
}.

Definition DEFAULT_MODEL : string := "t5-small".

(** The configuration of a process started with none of the variables
    set. *)
Definition default_config : config := {|
  HF_MODEL := DEFAULT_MODEL;
  HF_TOKEN := None;
  MAX_LEN := 140;
  MIN_LEN := 60;
  NUM_BEAMS := 4;
  NO_REPEAT_NGRAM := 3;
  DO_SAMPLE := false;
  TOP_P := S754_finite false 8106479329266893 (-53);
  TEMPERATURE := f0_8;
|}.

(** ** The transformers library, as the module sees it *)

Inductive decoding :=
| Beams (num_beams : Z)
| Sampling (top_p temperature : float) (num_return_sequences : Z).

(** The keyword arguments of one pipeline call. *)
Record gen_args := GenArgs {
  max_length : Z;
  min_length : Z;
  no_repeat_ngram_size : Z;
  truncation : bool;
  decode : decoding;
}.

(** A loaded summarization pipeline: called on a text, it returns a list
    of dicts or raises. *)
Record pipeline := Pipeline {
  call : string -> gen_args -> result (list (gmap string string));
}.

(** How the credential is handed to [transformers.pipeline]. *)
Inductive auth :=
| token_kw (t : option string)
| use_auth_token_kw (t : option string).

(** [transformers.pipeline(task="summarization", ...)]: the outcome of the
    [n]-th call the process makes to it. *)
Definition hub : Type := nat -> auth -> result pipeline.

(** ** Process state: the two module globals, and how many times the hub
    has been called *)

Record state := State {
  _PIPELINE : option pipeline;
  _LAST_ERR : option string;
  hub_calls : nat;
}.

Definition initial_state : state :=
  {| _PIPELINE := None; _LAST_ERR := None; hub_calls := 0 |}.

(** ** The monad of the module's functions *)

Definition M (A : Type) : Type := state -> result A * state.

Definition ret {A} (a : A) : M A := fun st => (inr a, st).
Definition throw {A} (e : exn) : M A := fun st => (inl e, st).
Definition bind {A B} (m : M A) (k : A -> M B) : M B :=
  fun st =>
    match m st with
    | (inr a, st') => k a st'
    | (inl e, st') => (inl e, st')
    end.
Definition lift {A} (r : result A) : M A := fun st => (r, st).
Definition get : M state := fun st => (inr st, st).
Definition put (st' : state) : M unit := fun _ => (inr tt, st').

(** [try: body except Exception as e: handler(e)]. *)
Definition try_catch {A} (body : M A) (handler : exn -> M A) : M A :=
  fun st =>
    match body st with
    | (inr a, st') => (inr a, st')
    | (inl e, st') => handler e st'
    end.

Notation "x <- m ;; k" := (bind m (fun x => k))
  (at level 100, m at next level, right associativity).
Notation "m ;;; k" := (bind m (fun _ => k))
  (at level 100, right associativity).

Definition set_PIPELINE (p : option pipeline) : M unit :=
  st <- get ;;
  put {| _PIPELINE := p; _LAST_ERR := _LAST_ERR st;
         hub_calls := hub_calls st |}.

Definition set_LAST_ERR (e : option string) : M unit :=
  st <- get ;;
  put {| _PIPELINE := _PIPELINE st; _LAST_ERR := e;
         hub_calls := hub_calls st |}.

(** Unfolds the monad's operations, to run a computation symbolically. *)
Ltac run := unfold bind, try_catch, ret, throw, lift, get, put,
              set_PIPELINE, set_LAST_ERR; simpl.

(** Truth value of an optional string: [None] and the empty string are
    false. *)
Definition truthy (s : option string) : bool :=
  match s with
  | Some s => negb (String.eqb s EmptyString)
  | None => false
  end.

Section WithEnvironment.

Variable cfg : config.
Variable transformers : hub.

(** One call of [transformers.pipeline]. *)
Definition call_hub (a : auth) : M pipeline :=
  fun st =>
    (in_library (transformers (hub_calls st) a),
     {| _PIPELINE := _PIPELINE st; _LAST_ERR := _LAST_ERR st;
        hub_calls := S (hub_calls st) |}).

Definition _is_t5_family (name : string) : bool :=
  PyStr.contains "t5" (PyStr.lower name).

Definition _pipeline_with_auth (token : option string) : M pipeline :=
  try_catch (call_hub (token_kw token))
    (fun e =>
       if String.eqb (exn_class e) "TypeError"
       then call_hub (use_auth_token_kw token)
       else throw e).

Definition _load_pipeline : M (option pipeline) :=
  st <- get ;;
  match _PIPELINE st with
  | Some p => ret (Some p)
  | None =>
      (* 1) anonymous *)
      r <- try_catch
             (p <- _pipeline_with_auth None ;;
              set_PIPELINE (Some p) ;;;
              set_LAST_ERR None ;;;
              ret (Some p))
             (fun e =>
                set_PIPELINE None ;;;
                set_LAST_ERR
                  (Some ("Anonymous load failed: " ++ exn_msg e)) ;;;
                ret None) ;;
      match r with
      | Some p => ret (Some p)
      | None =>
          (* 2) with the token, if one is provided *)
          r2 <- (if truthy (HF_TOKEN cfg)
                 then
                   try_catch
                     (p <- _pipeline_with_auth (HF_TOKEN cfg) ;;
                      set_PIPELINE (Some p) ;;;
                      set_LAST_ERR None ;;;
                      ret (Some p))
                     (fun e =>
                        set_PIPELINE None ;;;
                        set_LAST_ERR
                          (Some ("Token load failed: " ++ exn_msg e)) ;;;
                        ret None)
                 else ret None) ;;
          match r2 with
          | Some p => ret (Some p)
          | None => ret None
          end
      end
  end.

(** [float(w)] for a dimension. *)
Definition to_float (w : pynum) : result float :=
  match w with
  | PyInt z => float_of_int z
  | PyFloat f => ok f
  end.

Definition dims_of (w h : option pynum) : string :=
  match
    match w, h with
    | Some w, Some h =>
        rbind (to_float w) (fun fw =>
        rbind (to_float h) (fun fh =>
        ok (format_2f false fw ++ "ft x " ++ format_2f false fh ++ "ft")))
    | _, _ => ok "N/A"
    end
  with
  | inr dims => dims
  | inl _ => "N/A"
  end.

(** [x or default] for an optional string. *)
Definition str_or (x : option string) (default : string) : string :=
  match x with
  | Some s => if String.eqb s EmptyString then default else s
  | None => default
  end.

(** [x or default] for an optional int. *)
Definition int_or (x : option Z) (default : Z) : Z :=
  match x with
  | Some 0 => default
  | Some z => z
  | None => default
  end.

Definition item_line (i : Z) (p : item) : string :=
  let name := str_or (name p) "Item" in
  let cat := str_or (category p) "General" in
  let qty := int_or (quantity p) 1 in
  let dims := dims_of (width_ft p) (height_ft p) in
  "- " ++ PyStr.of_int i ++ ". " ++ name ++ " (" ++ cat ++ "), Qty: "
  ++ PyStr.of_int qty ++ ", Size: " ++ dims.

Fixpoint item_lines (i : Z) (product_list : list item) : list string :=
  match product_list with
  | [] => []
  | p :: rest => item_line i p :: item_lines (i + 1) rest
  end.

Definition _build_source_text
    (customer_name : string) (product_list : list item)
    (total_amount : float) : string :=
  let header :=
    ["Customer: " ++ customer_name ++ ".";
     "Total quoted amount: $" ++ format_2f true total_amount ++ ".";
     "Items:"] in
  let scope :=
    "Scope includes supply and installation to Reliant Windows standards, "
    ++ "final site measurements prior to fabrication, and warranty-backed workmanship." in
  let lines := app header (app (item_lines 1 product_list) [scope]) in
  PyStr.join " " lines.

Definition _dynamic_lengths (text : string) : result (Z * Z) :=
  let wc := Z.max 1 (Z.of_nat (length (PyStr.split text))) in
  rbind (py_int (fmul (of_Z wc) f0_8)) (fun w8 =>
  let dyn_max := Z.min (MAX_LEN cfg) (Z.max 48 w8) in
  rbind (py_int (fmul (of_Z wc) f0_4)) (fun w4 =>
  let dyn_min := Z.min (MIN_LEN cfg) (Z.max 24 w4) in
  let dyn_min :=
    if dyn_max <=? dyn_min then Z.max 16 (dyn_max - 8) else dyn_min in
  ok (dyn_min, dyn_max))).

(** [out[0]["summary_text"]]. *)
Definition first_summary_text (out : list (gmap string string))
  : result string :=
  match out with
  | [] => raise (Exn by_library "IndexError" "list index out of range")
  | d :: _ =>
      match d !! "summary_text" with
      | Some s => ok s
      | None => raise (Exn by_library "KeyError" "'summary_text'")
      end
  end.

Definition _summarize (text : string) : M string :=
  nlp <- _load_pipeline ;;
  match nlp with
  | None =>
      st <- get ;;
      throw (Exn by_repository "RuntimeError"
               ("Transformers pipeline unavailable: "
                ++ str_or (_LAST_ERR st) "unknown"))
  | Some nlp =>
      let text :=
        if _is_t5_family (HF_MODEL cfg) then "summarize: " ++ text
        else text in
      lens <- lift (_dynamic_lengths text) ;;
      let '(dyn_min, dyn_max) := lens in
      let args := {|
        max_length := dyn_max;
        min_length := dyn_min;
        no_repeat_ngram_size := NO_REPEAT_NGRAM cfg;
        truncation := true;
        decode := if DO_SAMPLE cfg
                  then Sampling (TOP_P cfg) (TEMPERATURE cfg) 1
                  else Beams (NUM_BEAMS cfg);
      |} in
      out <- lift (in_library (call nlp text args)) ;;
      s <- lift (first_summary_text out) ;;
      ret (PyStr.strip s)
  end.

(** The loop of [_fallback_summary]: the distinct names in order of first
    appearance, with the set of names seen so far. *)
Definition distinct_names (product_list : list item) : list string :=
  snd (fold_left
         (fun (acc : gset string * list string) (p : item) =>
            let '(seen, names) := acc in
            let n := str_or (name p) "product" in
            if bool_decide (n ∈ seen) then (seen, names)
            else (seen ∪ {[ n ]}, app names [n]))
         product_list (∅, [])).

Definition _fallback_summary
    (customer_name : string) (product_list : list item)
    (total_amount : float) : string :=
  let names := distinct_names product_list in
  let name_str :=
    match names with
    | [] => "the specified products"
    | _ => PyStr.join ", " (firstn 6 names)
           ++ (if (6 <? length names)%nat then "..." else EmptyString)
    end in
  "This quotation for " ++ customer_name
  ++ " covers supply and installation of "
  ++ PyStr.of_int (Z.of_nat (length product_list))
  ++ " item type(s) (" ++ name_str ++ ") with a total value of $"
  ++ format_2f true total_amount
  ++ ". The scope includes site verification, fabrication to "
  ++ "final measurements, and installation aligned with Reliant Windows standards.".

Definition generate_quote_summary
    (customer_name : string) (product_list : list item)
    (total_amount : float) : M string :=
  let src := _build_source_text customer_name product_list total_amount in
  try_catch (_summarize src)
    (fun _ =>
       ret (_fallback_summary customer_name product_list total_amount)).

End WithEnvironment.

End SummaryGenerator.

(* ===================================================================== *)
(** * price_predictor.py                                                 *)
(* ===================================================================== *)

Module PricePredictor.

Import PyFloat.
Local Open Scope Z_scope.

(** ** The two tables the training query reads (models.py) *)

Record Product := {
  p_id : Z;
  p_name : string;
  p_category : string;
  p_base_cost_per_sqft : float;
}.

Record QuotationItem := {
  qi_id : Z;
  qi_quotation_id : Z;
  qi_product_id : Z;
  qi_quantity : Z;
  qi_width_ft : float;
  qi_height_ft : float;
  qi_unit_price : float;
  qi_line_total : float;
}.

Record database := {
  quotation_item : list QuotationItem;
  product : list Product;
}.

(** ** The frame given to the regression *)

Record feature_row := {
  category : string;
  area : float;
  quantity : Z;
  base_cost_per_sqft : float;
}.

(** A fitted scikit-learn pipeline. *)
Record model := Model {
  predict : list feature_row -> result (list float);
}.

(** What scikit-learn contributes to training. *)
Record sklearn := {
  fit : list feature_row -> list float -> result model;
  mean_absolute_error : list float -> list float -> result float;
}.

(** What a path of the file system holds. *)
Inductive file :=
| Pickle (m : model)
| Garbage.

(** One entry of [product_list]; [None] is an absent key. *)
Record item := {
  i_category : option string;
  i_width_ft : option float;
  i_height_ft : option float;
  i_quantity : option Z;
  i_base_cost_per_sqft : option float;
}.

(** ** Process state *)

Record state := {
  _model_cache : option model;
  files : gmap string file;
  predict_calls : nat;
}.

Definition M (A : Type) : Type := state -> result A * state.

Definition ret {A} (a : A) : M A := fun st => (inr a, st).
Definition throw {A} (e : exn) : M A := fun st => (inl e, st).
Definition bind {A B} (m : M A) (k : A -> M B) : M B :=
  fun st =>
    match m st with
    | (inr a, st') => k a st'
    | (inl e, st') => (inl e, st')
    end.
Definition lift {A} (r : result A) : M A := fun st => (r, st).
Definition get : M state := fun st => (inr st, st).

Notation "x <- m ;; k" := (bind m (fun x => k))
  (at level 100, m at next level, right associativity).
Notation "m ;;; k" := (bind m (fun _ => k))
  (at level 100, right associativity).

(** [model.predict(X)]. *)
Definition call_predict (m : model) (X : list feature_row) : M (list float) :=
  fun st =>
    (in_library (predict m X),
     {| _model_cache := _model_cache st; files := files st;
        predict_calls := S (predict_calls st) |}).

(** [pickle.dump(model, open(path, "wb"))]. *)
Definition write_pickle (path : string) (m : model) : M unit :=
  fun st =>
    (inr tt,
     {| _model_cache := _model_cache st;
        files := <[ path := Pickle m ]> (files st);
        predict_calls := predict_calls st |}).

(** [pickle.load(open(path, "rb"))]. *)
Definition read_pickle (path : string) : M model :=
  st <- get ;;
  match files st !! path with
  | Some (Pickle m) => ret m
  | Some Garbage =>
      throw (Exn by_library "UnpicklingError" "invalid load key")
  | None =>
      throw (Exn by_library "FileNotFoundError" path)
  end.

Definition set_model_cache (m : model) : M unit :=
  fun st =>
    (inr tt,
     {| _model_cache := Some m; files := files st;
        predict_calls := predict_calls st |}).

(** The specification calls this error [TrainingDataUnavailable]; the
    source raises it as a [RuntimeError] with this message and defines no
    class of its own. *)
Definition TrainingDataUnavailable : exn :=
  Exn by_repository "RuntimeError"
    "No data available to train the price predictor. Seed the DB first.".

(** [SELECT ... FROM quotation_item AS qi JOIN product AS p
     ON qi.product_id = p.id]: the pairs the inner join keeps. *)
Definition joined (db : database) : list (QuotationItem * Product) :=
  flat_map
    (fun qi =>
       map (fun p => (qi, p))
         (filter (fun p => bool_decide (qi_product_id qi = p_id p))
            (product db)))
    (quotation_item db).

(** The columns [X] of the training frame, for one joined row. *)
Definition training_features (r : QuotationItem * Product) : feature_row :=
  let '(qi, p) := r in
  {| category := p_category p;
     area := fmul (qi_width_ft qi) (qi_height_ft qi);
     quantity := qi_quantity qi;
     base_cost_per_sqft := p_base_cost_per_sqft p |}.

(** The column [y] of the training frame. *)
Definition training_target (r : QuotationItem * Product) : float :=
  qi_line_total (fst r).

Section WithEnvironment.

(** [PRICE_MODEL_PATH], when set and not empty. *)
Variable MODEL_PATH : option string.
(** The database behind the default URI. *)
Variable db : database.
Variable sk : sklearn.

(** [instance/price_model.pkl] beside the module. *)
Definition local_path : string := "instance/price_model.pkl".

Definition train_and_save_model (model_out_path : option string)
  : M string :=
  let rows := joined db in
  match rows with
  | [] => throw TrainingDataUnavailable
  | _ =>
      let X := map training_features rows in
      let y := map training_target rows in
      m <- lift (in_library (fit sk X y)) ;;
      preds <- call_predict m X ;;
      _mae <- lift (in_library (mean_absolute_error sk y preds)) ;;
      let out_path :=
        match model_out_path with
        | Some p => if String.eqb p EmptyString then local_path else p
        | None => local_path
        end in
      write_pickle out_path m ;;;
      ret out_path
  end.

Definition exists_file (path : string) : M bool :=
  st <- get ;;
  ret (bool_decide (is_Some (files st !! path))).

Definition _load_model : M model :=
  explicit <- match MODEL_PATH with
              | Some p => exists_file p
              | None => ret false
              end ;;
  match MODEL_PATH, explicit with
  | Some p, true => read_pickle p
  | _, _ =>
      here <- exists_file local_path ;;
      if here then read_pickle local_path
      else
        train_and_save_model None ;;;
        read_pickle local_path
  end.

(** The frame row built from one entry of [product_list]. *)
Definition features (it : item) : feature_row :=
  {| category := default "Unknown" (i_category it);
     area := fmul (default pos_zero (i_width_ft it))
                  (default pos_zero (i_height_ft it));
     quantity := default 1 (i_quantity it);
     base_cost_per_sqft := default pos_zero (i_base_cost_per_sqft it) |}.

(** [if _model_cache is None: _model_cache = _load_model()], and the
    value of [_model_cache] after it. *)
Definition cached_model : M model :=
  st <- get ;;
  match _model_cache st with
  | Some m => ret m
  | None =>
      m <- _load_model ;;
      set_model_cache m ;;;
      ret m
  end.

(** [float(np.maximum(line_total_preds, 0).sum())]. *)
Definition clamped_total (line_total_preds : list float) : float :=
  np_sum (map (fun p => np_maximum p pos_zero) line_total_preds).

Definition predict_quote_total (product_list : list item) : M float :=
  m <- cached_model ;;
  let rows := map features product_list in
  match rows with
  | [] => ret pos_zero
  | _ =>
      line_total_preds <- call_predict m rows ;;
      let total := clamped_total line_total_preds in
      ret (py_round2 total)
  end.

End WithEnvironment.

End PricePredictor.

(* ===================================================================== *)
(** * customer_segmentation.py                                           *)
(* ===================================================================== *)

Module CustomerSegmentation.

Import PyFloat.
Local Open Scope Z_scope.

(** ** ORM entities (models.py), as far as the module reads them *)

(** A [datetime]: microseconds since the epoch, read as UTC when naive. *)
Record datetime := {
  micros : Z;
  tzaware : bool;
}.

Record Quotation := {
  total_amount : option float;
  timestamp : option datetime;
}.

(** [c_id] and [c_name] are the columns [id] and [name]. *)
Record Customer := {
  c_id : Z;
  c_name : string;
  quotations : list Quotation;
}.

(** ** Data frames *)

(** One row; [cluster] and [segment] are set once their columns exist. *)
Record row := {
  customer_id : Z;
  customer_name : string;
  total_quotes : Z;
  total_value : float;
  avg_value : float;
  days_since_last : Z;
  cluster : option Z;
  segment : option string;
}.

Record DataFrame := {
  columns : list string;
  rows : list row;
}.

(** [df.empty]: an axis of length zero. *)
Definition empty (df : DataFrame) : bool :=
  match columns df, rows df with
  | _ :: _, _ :: _ => false
  | _, _ => true
  end.

Definition feature_columns : list string :=
  ["customer_id"; "customer_name"; "total_quotes";
   "total_value"; "avg_value"; "days_since_last"].

Definition result_columns : list string :=
  ["customer_id"; "customer_name"; "segment";
   "total_quotes"; "total_value"; "avg_value"; "days_since_last"].

(** ** Stable sorting

    [before y x] says that [y] must come strictly before [x]; elements that
    neither relation separates keep their input order, as Python's [sorted]
    and the multi-key [sort_values] do. *)

Section Sorting.
Context {A : Type}.
Variable before : A -> A -> bool.

Fixpoint insert_by (x : A) (l : list A) : list A :=
  match l with
  | [] => [x]
  | y :: l' => if before y x then y :: insert_by x l' else x :: l
  end.

Definition sort_by (l : list A) : list A := foldr insert_by [] l.
End Sorting.

(** ** _build_feature_frame *)

Definition sort_key (now : datetime) (q : Quotation) : datetime :=
  match timestamp q with
  | Some t => t
  | None => now
  end.

(** [sorted(c.quotations, key=..., reverse=True)]: comparing a naive with an
    aware [datetime] raises [TypeError]. *)
Definition sorted_quotations (now : datetime) (qs : list Quotation)
  : result (list Quotation) :=
  let keys := map (sort_key now) qs in
  if (2 <=? length qs)%nat
     && existsb tzaware keys && existsb (fun t => negb (tzaware t)) keys
  then raise (Exn by_library "TypeError"
                "can't compare offset-naive and offset-aware datetimes")
  else ok (sort_by
             (fun y x => micros (sort_key now x) <? micros (sort_key now y))
             qs).

(** [q.total_amount or 0.0]. *)
Definition amount_or_zero (q : Quotation) : float :=
  match total_amount q with
  | Some (S754_zero _) => pos_zero
  | Some a => a
  | None => pos_zero
  end.

Definition microseconds_per_day : Z := 86400000000.

Definition feature_row_of (now : datetime) (c : Customer) : result row :=
  rbind (sorted_quotations now (quotations c)) (fun qs =>
  let totals := map amount_or_zero qs in
  let sum_value := match totals with [] => pos_zero | _ => np_sum totals end in
  let mean_value := match totals with [] => pos_zero | _ => np_mean totals end in
  let delta_days :=
    match qs with
    | q :: _ =>
        match timestamp q with
        | Some last_ts => (micros now - micros last_ts) / microseconds_per_day
        | None => 10000
        end
    | [] => 10000
    end in
  ok {| customer_id := c_id c;
        customer_name := c_name c;
        total_quotes := Z.of_nat (length qs);
        total_value := py_round2 sum_value;
        avg_value := py_round2 mean_value;
        days_since_last := delta_days;
        cluster := None;
        segment := None |}).

Fixpoint feature_rows (now : datetime) (customers : list Customer)
  : result (list row) :=
  match customers with
  | [] => ok []
  | c :: rest =>
      rbind (feature_row_of now c) (fun r =>
      rbind (feature_rows now rest) (fun rs => ok (r :: rs)))
  end.

Definition _build_feature_frame (now : datetime) (customers : list Customer)
  : result DataFrame :=
  rbind (feature_rows now customers) (fun rs =>
  let df := {| columns := match rs with [] => [] | _ => feature_columns end;
               rows := rs |} in
  ok (if empty df
      then {| columns := feature_columns; rows := [] |}
      else df)).

(** ** _label_clusters *)

Definition nan : float := S754_nan.

(** The mean a group-by aggregate takes: over the values that are not
    nan. *)
Definition mean_skipna (l : list float) : float :=
  match filter (fun x => negb (is_nan x)) l with
  | [] => nan
  | l' => np_mean l'
  end.

(** The distinct cluster ids in ascending order: the group keys. *)
Definition group_keys (rs : list row) : list Z :=
  foldr (fun r acc =>
           match cluster r with
           | Some c => if bool_decide (c ∈ acc) then acc
                       else insert_by (fun y x => y <? x) c acc
           | None => acc
           end) [] rs.

Record cluster_stats := {
  agg_cluster : Z;
  agg_total_value : float;
  agg_total_quotes : float;
  agg_days_since_last : float;
}.

(** The means of the rows of cluster [c]. *)
Definition stats_of (rs : list row) (c : Z) : cluster_stats :=
  let members := filter (fun r => bool_decide (cluster r = Some c)) rs in
  {| agg_cluster := c;
     agg_total_value := mean_skipna (map total_value members);
     agg_total_quotes :=
       mean_skipna (map (fun r => of_Z (total_quotes r)) members);
     agg_days_since_last :=
       mean_skipna (map (fun r => of_Z (days_since_last r)) members) |}.

(** [df.groupby(cluster_col).agg(...).reset_index()]: one row of means per
    cluster, in ascending order of the cluster id. *)
Definition aggregate (rs : list row) : list cluster_stats :=
  map (stats_of rs) (group_keys rs).

(** [Series.rank(method="min")]: one more than the number of smaller
    values; nan for nan. *)
Definition rank_min (col : list float) : list float :=
  map (fun x =>
         if is_nan x then nan
         else of_Z (1 + Z.of_nat (length (filter (fun y => flt y x) col))))
      col.

Definition scores (agg : list cluster_stats) : list float :=
  let r_value := rank_min (map agg_total_value agg) in
  let r_quotes := rank_min (map agg_total_quotes agg) in
  let r_recent := rank_min (map (fun a => fneg (agg_days_since_last a)) agg) in
  map (fun t => let '(rv, rq, rr) := t in
                fadd (fadd (fmul rv f0_6) (fmul rq f0_3)) (fmul rr f0_1))
      (zip (zip r_value r_quotes) r_recent).

(** Descending order on a float column, nan last. *)
Definition float_desc_before (y x : float) : bool :=
  if is_nan y then false
  else if is_nan x then true
  else flt x y.

Definition base_labels : list string :=
  ["High-Value Frequent"; "Occasional"; "Dormant/Low"].

Definition label_at (i : nat) : string :=
  match base_labels !! i with
  | Some l => l
  | None => "Segment " ++ PyStr.of_int (Z.of_nat i + 1)
  end.

(** Clusters are ranked by score, highest first.  Clusters of equal score
    keep the order of their ids; pandas leaves that order to the sorting
    algorithm. *)
Definition label_map (rs : list row) : gmap Z string :=
  let agg := aggregate rs in
  let scored := zip agg (scores agg) in
  let ranked :=
    sort_by (fun y x => float_desc_before (snd y) (snd x)) scored in
  fold_left
    (fun (m : gmap Z string) (ic : nat * (cluster_stats * float)) =>
       <[ agg_cluster (fst (snd ic)) := label_at (fst ic) ]> m)
    (zip (seq 0 (length ranked)) ranked) ∅.

Definition _label_clusters (rs : list row) : list (option string) :=
  let m := label_map rs in
  map (fun r => match cluster r with
                | Some c => m !! c
                | None => None
                end) rs.

(** ** compute_customer_segments *)

(** [X.fillna(0.0).astype(float)]. *)
Definition fillna (x : float) : float := if is_nan x then pos_zero else x.

Definition feature_matrix (rs : list row) : list (list float) :=
  map (fun r => [fillna (of_Z (total_quotes r));
                 fillna (total_value r);
                 fillna (avg_value r);
                 fillna (of_Z (days_since_last r))]) rs.

(** [StandardScaler().fit_transform] followed by
    [KMeans(n_clusters=k, random_state=42).fit_predict]: the cluster id of
    each row of the matrix, or what scikit-learn raises. *)
Definition clustering : Type := list (list float) -> Z -> result (list Z).

(** [df["cluster"] = clusters]. *)
Definition set_cluster (rs : list row) (clusters : list Z)
  : result (list row) :=
  if bool_decide (length clusters = length rs)
  then ok (map (fun rc : row * Z =>
                  let '(r, c) := rc in
                  {| customer_id := customer_id r;
                     customer_name := customer_name r;
                     total_quotes := total_quotes r;
                     total_value := total_value r;
                     avg_value := avg_value r;
                     days_since_last := days_since_last r;
                     cluster := Some c;
                     segment := segment r |})
             (zip rs clusters))
  else raise (Exn by_library "ValueError"
                "Length of values does not match length of index").

(** [df["segment"] = labels]. *)
Definition set_segment (rs : list row) (labels : list (option string))
  : list row :=
  map (fun rl : row * option string =>
         let '(r, l) := rl in
         {| customer_id := customer_id r;
            customer_name := customer_name r;
            total_quotes := total_quotes r;
            total_value := total_value r;
            avg_value := avg_value r;
            days_since_last := days_since_last r;
            cluster := cluster r;
            segment := l |})
      (zip rs labels).

(** Ascending order on the label column, missing labels last. *)
Definition label_before (y x : option string) : bool :=
  match y, x with
  | Some a, Some b => String.ltb a b
  | Some _, None => true
  | None, _ => false
  end.

(** [sort_values(["segment", "total_value"], ascending=[True, False])]. *)
Definition presentation_before (y x : row) : bool :=
  label_before (segment y) (segment x)
  || (bool_decide (segment y = segment x)
      && float_desc_before (total_value y) (total_value x)).

Section WithEnvironment.

(** The wall clock, in microseconds since the epoch. *)
Variable clock : Z.
(** [session.query(Customer).all()]. *)
Variable customers : list Customer.
Variable fit_predict : clustering.

(** [datetime.now(timezone.utc)]. *)
Definition _utcnow : datetime := {| micros := clock; tzaware := true |}.

Definition compute_customer_segments (k : Z) : result DataFrame :=
  rbind (_build_feature_frame _utcnow customers) (fun df =>
  if empty df then ok df
  else
    let X := feature_matrix (rows df) in
    rbind (in_library (fit_predict X k)) (fun clusters =>
    rbind (set_cluster (rows df) clusters) (fun rs =>
    let rs := set_segment rs (_label_clusters rs) in
    let rs := sort_by presentation_before rs in
    ok {| columns := result_columns; rows := rs |}))).

End WithEnvironment.

End CustomerSegmentation.

(** ** Views of the frames, for stating properties *)

Module SegmentationViews.
Import PyFloat CustomerSegmentation.
Local Open Scope Z_scope.

(** The six feature columns of a row. *)
Definition features_of (r : row)
  : Z * string * Z * float * float * Z :=
  (customer_id r, customer_name r, total_quotes r, total_value r,
   avg_value r, days_since_last r).

(** The clusters in the order [_label_clusters] ranks them. *)
Definition ranked_clusters (rs : list row) : list (cluster_stats * float) :=
  sort_by (fun y x => float_desc_before (snd y) (snd x))
    (zip (aggregate rs) (scores (aggregate rs))).
End SegmentationViews.

(* ===================================================================== *)
(** * app.py: the access decorators and the two JSON endpoints           *)
(* ===================================================================== *)

Module App.

Import PyFloat.
Local Open Scope Z_scope.

(** ** Request data *)

(** A value decoded from a JSON body.  An object is the [dict] the decoder
    built, as the list of its items. *)
#[warnings="-register-all"]
Inductive json :=
| JNull
| JBool (b : bool)
| JInt (z : Z)
| JFloat (f : float)
| JStr (s : string)
| JList (l : list json)
| JObj (m : list (string * json)).

Definition type_name (v : json) : string :=
  match v with
  | JNull => "NoneType"
  | JBool _ => "bool"
  | JInt _ => "int"
  | JFloat _ => "float"
  | JStr _ => "str"
  | JList _ => "list"
  | JObj _ => "dict"
  end.

(** Truth value, as [or] tests it. *)
Definition truthy (v : json) : bool :=
  match v with
  | JNull => false
  | JBool b => b
  | JInt z => negb (z =? 0)
  | JFloat (S754_zero _) => false
  | JFloat _ => true
  | JStr s => negb (String.eqb s EmptyString)
  | JList l => match l with [] => false | _ => true end
  | JObj m => match m with [] => false | _ => true end
  end.

Fixpoint assoc (key : string) (m : list (string * json)) : option json :=
  match m with
  | [] => None
  | (k, v) :: rest => if String.eqb k key then Some v else assoc key rest
  end.

(** [d.get(key, default)]. *)
Definition dict_get (d : json) (key : string) (default : json)
  : result json :=
  match d with
  | JObj m => ok (match assoc key m with Some v => v | None => default end)
  | _ => raise (Exn by_library "AttributeError"
                  ("'" ++ type_name d ++ "' object has no attribute 'get'"))
  end.

(** [d[key]] for a string [key]. *)
Definition getitem (d : json) (key : string) : result json :=
  match d with
  | JObj m =>
      match assoc key m with
      | Some v => ok v
      | None => raise (Exn by_library "KeyError" ("'" ++ key ++ "'"))
      end
  | JList _ =>
      raise (Exn by_library "TypeError"
               "list indices must be integers or slices, not str")
  | JStr _ =>
      raise (Exn by_library "TypeError"
               "string indices must be integers, not 'str'")
  | _ => raise (Exn by_library "TypeError"
                  ("'" ++ type_name d ++ "' object is not subscriptable"))
  end.


(** ** Responses and the request context *)

Inductive body :=
| PredictOk (suggested_total : float)
| SummaryOk (summary : string)
| Failure (error : string).

(** [redirect(url_for(endpoint))], [render_template(template, ...)] or
    [jsonify(body)] with a status. *)
Inductive response :=
| Redirect (endpoint : string)
| Render (template : string)
| Json (status : Z) (b : body).

(** A value kept in the session by [login]. *)
Inductive sval :=
| SInt (z : Z)
| SStr (s : string).

(** A row of the table [quotation], as far as the endpoints read it. *)
Record quotation_row := {
  q_user_id : Z;
  q_customer_id : Z;
  q_total_amount : float;
  q_ai_summary : option string;
}.

(** A row of the table [user]. *)
Record user_row := {
  u_id : Z;
  u_username : string;
  u_email : string;
  u_password_hash : string;
  u_role : string;
}.

(** What a request can read and change: the session with its flashed
    messages, the table [quotation], and the two module states. *)
Record world := {
  session : gmap string sval;
  flashes : list (string * string);
  quotation : gmap Z quotation_row;
  predictor : PricePredictor.state;
  summarizer : SummaryGenerator.state;
}.

(** A view function: it returns a response or raises. *)
Definition handler : Type := world -> result response * world.

(** [flash(message, category)]. *)
Definition flash (message category : string) (w : world) : world :=
  {| session := session w;
     flashes := app (flashes w) [(category, message)];
     quotation := quotation w;
     predictor := predictor w;
     summarizer := summarizer w |}.


Definition set_summarizer (s : SummaryGenerator.state) (w : world) : world :=
  {| session := session w; flashes := flashes w; quotation := quotation w;
     predictor := predictor w; summarizer := s |}.

Definition set_quotation (t : gmap Z quotation_row) (w : world) : world :=
  {| session := session w; flashes := flashes w; quotation := t;
     predictor := predictor w; summarizer := summarizer w |}.

Definition set_session (s : gmap string sval) (w : world) : world :=
  {| session := s; flashes := flashes w; quotation := quotation w;
     predictor := predictor w; summarizer := summarizer w |}.

(** ** login and logout *)

Section Auth.

(** The table [user]. *)
Variable user : list user_row.
(** [werkzeug.security.check_password_hash]. *)
Variable check_password_hash : string -> string -> bool.

(** [login], for a request with the given method and form fields. *)
Definition login (method : string) (form : gmap string string) : handler :=
  fun w =>
    if String.eqb method "POST"
    then
      let email :=
        PyStr.lower (PyStr.strip (default EmptyString (form !! "email"))) in
      let password := default EmptyString (form !! "password") in
      match find (fun u => String.eqb (u_email u) email) user with
      | Some u =>
          if check_password_hash (u_password_hash u) password
          then
            let s := <[ "user_id" := SInt (u_id u) ]> (session w) in
            let s := <[ "role" := SStr (u_role u) ]> s in
            let s := <[ "username" := SStr (u_username u) ]> s in
            (ok (Redirect "index"),
             flash "Logged in successfully." "success" (set_session s w))
          else (ok (Render "login.html"),
                flash "Invalid credentials." "danger" w)
      | None => (ok (Render "login.html"),
                 flash "Invalid credentials." "danger" w)
      end
    else (ok (Render "login.html"), w).

End Auth.

(** [logout]: [session.clear()] empties the session, the flashed messages
    it holds included, before the new message is flashed. *)
Definition logout : handler :=
  fun w =>
    (ok (Redirect "login"),
     {| session := ∅; flashes := [("info", "Logged out.")];
        quotation := quotation w; predictor := predictor w;
        summarizer := summarizer w |}).

(** ** The decorators *)

(** ['user_id' in session]. *)
Definition logged_in (w : world) : bool :=
  bool_decide (is_Some (session w !! "user_id")).

Definition login_required (f : handler) : handler :=
  fun w =>
    if negb (logged_in w) then (ok (Redirect "login"), w)
    else f w.

(** [session.get('role') in roles]. *)
Definition role_in (roles : list string) (w : world) : bool :=
  match session w !! "role" with
  | Some (SStr r) => bool_decide (r ∈ roles)
  | _ => false
  end.

Definition role_required (roles : list string) (f : handler) : handler :=
  fun w =>
    if negb (logged_in w) then (ok (Redirect "login"), w)
    else if match roles with [] => false | _ => true end
            && negb (role_in roles w)
    then (ok (Redirect "index"),
          flash "You don't have permission to access that resource."
            "warning" w)
    else f w.

(** [session.get('role') != 'manager' and owner != session.get('user_id')]:
    the test of the views that show or change one quotation. *)
Definition not_permitted (owner : Z) (w : world) : bool :=
  negb (match session w !! "role" with
        | Some (SStr r) => String.eqb r "manager"
        | _ => false
        end)
  && negb (match session w !! "user_id" with
           | Some (SInt u) => owner =? u
           | _ => false
           end).

(** SQLite stores integers of 64 bits; the driver refuses others. *)
Definition sqlite_int (z : Z) : result Z :=
  if (- 2 ^ 63 <=? z) && (z <? 2 ^ 63) then ok z
  else raise (Exn by_library "OverflowError"
                "Python int too large to convert to SQLite INTEGER").

Section WithEnvironment.

(** [int(s)] and [float(s)] for a string, as the interpreter parses it. *)
Variable parse_int : string -> result Z.
Variable parse_float : string -> result float.
(** The summarizer's and the predictor's environment. *)
Variable cfg : SummaryGenerator.config.
Variable transformers : SummaryGenerator.hub.
Variable MODEL_PATH : option string.
Variable db : PricePredictor.database.
Variable sk : PricePredictor.sklearn.
(** The table [customer]: the name of each id. *)
Variable customer : gmap Z string.
(** What [db.session.commit()] does on this request. *)
Variable commit : result unit.

(** [int(v)]. *)
Definition int_of (v : json) : result Z :=
  match v with
  | JInt z => ok z
  | JBool b => ok (if b then 1 else 0)
  | JFloat f => py_int f
  | JStr s => in_library (parse_int s)
  | _ => raise (Exn by_library "TypeError"
                  ("int() argument must be a string, a bytes-like object "
                   ++ "or a real number, not '" ++ type_name v ++ "'"))
  end.

(** [float(v)]. *)
Definition float_of (v : json) : result float :=
  match v with
  | JInt z => float_of_int z
  | JBool b => ok (if b then of_Z 1 else pos_zero)
  | JFloat f => ok f
  | JStr s => in_library (parse_float s)
  | _ => raise (Exn by_library "TypeError"
                  ("float() argument must be a string or a real number, "
                   ++ "not '" ++ type_name v ++ "'"))
  end.

(** [Product.query.get(id)]. *)
Definition Product_query_get (id : Z) : result (option PricePredictor.Product) :=
  rbind (sqlite_int id) (fun id =>
  ok (find (fun p => PricePredictor.p_id p =? id) (PricePredictor.product db))).

(** ** api_predict_price *)

(** The body of the loop for one element of [items]: [None] when the
    product does not exist and the element is skipped. *)
Definition payload_item (it : json) : result (option PricePredictor.item) :=
  rbind (getitem it "product_id") (fun pid =>
  rbind (int_of pid) (fun id =>
  rbind (Product_query_get id) (fun product =>
  match product with
  | None => ok None
  | Some product =>
      rbind (dict_get it "width_ft" (JInt 0)) (fun w =>
      rbind (float_of w) (fun width_ft =>
      rbind (dict_get it "height_ft" (JInt 0)) (fun h =>
      rbind (float_of h) (fun height_ft =>
      rbind (dict_get it "quantity" (JInt 1)) (fun q =>
      rbind (int_of q) (fun quantity =>
      ok (Some
            {| PricePredictor.i_category :=
                 Some (PricePredictor.p_category product);
               PricePredictor.i_width_ft := Some width_ft;
               PricePredictor.i_height_ft := Some height_ft;
               PricePredictor.i_quantity := Some quantity;
               PricePredictor.i_base_cost_per_sqft :=
                 Some (PricePredictor.p_base_cost_per_sqft product) |})))))))
  end))).

Fixpoint build_payload (items : list json)
  : result (list PricePredictor.item) :=
  match items with
  | [] => ok []
  | it :: rest =>
      rbind (payload_item it) (fun entry =>
      rbind (build_payload rest) (fun payload =>
      ok (match entry with
          | Some e => e :: payload
          | None => payload
          end)))
  end.

(** [request.get_json() or {}]. *)
Definition body_or_empty (request_json : result json) : result json :=
  rbind (in_library request_json) (fun v =>
  ok (if truthy v then v else JObj [])).




(** ** api_generate_summary *)

(** [Quotation.query.get_or_404(qid)]. *)
Definition get_or_404 (t : gmap Z quotation_row) (qid : Z)
  : result quotation_row :=
  rbind (sqlite_int qid) (fun qid =>
  match t !! qid with
  | Some q => ok q
  | None =>
      raise (Exn by_library "NotFound"
               ("404 Not Found: The requested URL was not found on the "
                ++ "server. If you entered the URL manually please check "
                ++ "your spelling and try again."))
  end).

(** One entry of [items_for_summary]; [it.product] is [None] when the
    product row is missing. *)
Definition summary_item (it : PricePredictor.QuotationItem)
  : result SummaryGenerator.item :=
  match find (fun p => PricePredictor.p_id p
                       =? PricePredictor.qi_product_id it)
          (PricePredictor.product db) with
  | Some p =>
      ok {| SummaryGenerator.name := Some (PricePredictor.p_name p);
            SummaryGenerator.category := Some (PricePredictor.p_category p);
            SummaryGenerator.quantity := Some (PricePredictor.qi_quantity it);
            SummaryGenerator.width_ft :=
              Some (SummaryGenerator.PyFloat (PricePredictor.qi_width_ft it));
            SummaryGenerator.height_ft :=
              Some (SummaryGenerator.PyFloat (PricePredictor.qi_height_ft it))
         |}
  | None => raise (Exn by_library "AttributeError"
                     "'NoneType' object has no attribute 'name'")
  end.

Fixpoint summary_items (its : list PricePredictor.QuotationItem)
  : result (list SummaryGenerator.item) :=
  match its with
  | [] => ok []
  | it :: rest =>
      rbind (summary_item it) (fun x =>
      rbind (summary_items rest) (fun xs => ok (x :: xs)))
  end.

(** [q.items]. *)
Definition items_of (qid : Z) : list PricePredictor.QuotationItem :=
  filter (fun it => bool_decide (PricePredictor.qi_quotation_id it = qid))
    (PricePredictor.quotation_item db).

Definition with_summary (q : quotation_row) (s : string) : quotation_row :=
  {| q_user_id := q_user_id q; q_customer_id := q_customer_id q;
     q_total_amount := q_total_amount q; q_ai_summary := Some s |}.

Definition api_generate_summary_view (request_json : result json) : handler :=
  fun w =>
    match rbind (body_or_empty request_json) (fun data =>
          rbind (dict_get data "quotation_id" JNull) int_of) with
    | inl _ => (ok (Json 400 (Failure "Invalid quotation_id")), w)
    | inr qid =>
        match get_or_404 (quotation w) qid with
        | inl e => (inl e, w)
        | inr q =>
            if not_permitted (q_user_id q) w
            then (ok (Json 403 (Failure "Permission denied")), w)
            else
              match summary_items (items_of qid) with
              | inl e => (inl e, w)
              | inr items_for_summary =>
                  match customer !! q_customer_id q with
                  | None =>
                      (ok (Json 500
                             (Failure
                                "'NoneType' object has no attribute 'name'")),
                       w)
                  | Some customer_name =>
                      let '(r, s) :=
                        SummaryGenerator.generate_quote_summary cfg
                          transformers customer_name items_for_summary
                          (q_total_amount q) (summarizer w) in
                      let w := set_summarizer s w in
                      match r with
                      | inl e => (ok (Json 500 (Failure (exn_msg e))), w)
                      | inr summary =>
                          match in_library commit with
                          | inl e => (ok (Json 500 (Failure (exn_msg e))), w)
                          | inr _ =>
                              (ok (Json 200 (SummaryOk summary)),
                               set_quotation
                                 (<[ qid := with_summary q summary ]>
                                    (quotation w)) w)
                          end
                      end
                  end
              end
        end
    end.

Definition api_generate_summary (request_json : result json) : handler :=
  login_required (api_generate_summary_view request_json).

End WithEnvironment.

End App.

(* ===================================================================== *)
(** * app.py: the item rows of the quotation form                         *)
(* ===================================================================== *)

Module QuotationForm.
Import PyFloat App.
Local Open Scope Z_scope.

(** The key [f"items[{idx}][{name}]"] of the dynamic form. *)
Definition field (idx : nat) (name : string) : string :=
  "items[" ++ PyStr.of_int (Z.of_nat idx) ++ "][" ++ name ++ "]".

(** One entry of [items], as [quotation_new] collects it. *)
Record form_item := {
  fi_product : PricePredictor.Product;
  fi_quantity : Z;
  fi_width_ft : float;
  fi_height_ft : float;
  fi_unit_price : float;
  fi_line_total : float;
}.

(** [max(a, b)] on two floats: [b] when [b > a], else [a]. *)
Definition py_max (a b : float) : float := if flt a b then b else a.

Section WithEnvironment.

Variable parse_int : string -> result Z.
Variable parse_float : string -> result float.
Variable db : PricePredictor.database.
(** [request.form]. *)
Variable form : gmap string string.

(** [int(request.form.get(key, default))]. *)
Definition form_int (key : string) (default : Z) : result Z :=
  match form !! key with
  | Some s => in_library (parse_int s)
  | None => ok default
  end.

(** [float(request.form.get(key, 0))]. *)
Definition form_float (key : string) : result float :=
  match form !! key with
  | Some s => in_library (parse_float s)
  | None => ok pos_zero
  end.

(** The body of the loop for a row whose product id is not blank. *)
Definition form_row (idx : nat) (pid : string) : result form_item :=
  rbind (in_library (parse_int pid)) (fun id =>
  rbind (Product_query_get db id) (fun product =>
  rbind (form_int (field idx "quantity") 1) (fun quantity =>
  rbind (form_float (field idx "width_ft")) (fun width_ft =>
  rbind (form_float (field idx "height_ft")) (fun height_ft =>
  rbind (form_float (field idx "unit_price")) (fun unit_price =>
  let area := fmul width_ft height_ft in
  rbind (float_of_int quantity) (fun q =>
  let line_total := fmul (fmul unit_price q) (py_max area (of_Z 1)) in
  match product with
  | Some p =>
      ok {| fi_product := p; fi_quantity := quantity;
            fi_width_ft := width_ft; fi_height_ft := height_ft;
            fi_unit_price := unit_price; fi_line_total := line_total |}
  | None => raise (Exn by_library "AttributeError"
                     "'NoneType' object has no attribute 'id'")
  end))))))).

(** The [while True] loop from index [idx], run for at most [fuel] rounds:
    [None] when the rounds do not suffice. *)
Fixpoint collect_items (fuel : nat) (idx : nat)
  : option (result (list form_item)) :=
  match fuel with
  | O => None
  | S fuel =>
      match form !! field idx "product_id" with
      | None => Some (ok [])
      | Some pid =>
          if String.eqb (PyStr.strip pid) EmptyString
          then collect_items fuel (S idx)
          else
            match form_row idx pid with
            | inl e => Some (inl e)
            | inr it =>
                match collect_items fuel (S idx) with
                | Some r => Some (rbind r (fun rest => ok (it :: rest)))
                | None => None
                end
            end
      end
  end.

(** The loop of [quotation_new]; one round more than the form has fields
    is enough. *)
Definition quotation_items : option (result (list form_item)) :=
  collect_items (S (size form)) 0.

End WithEnvironment.

End QuotationForm.

(* ===================================================================== *)
(** * The specification's wording, as definitions to compare the code with *)
(* ===================================================================== *)

Module SummarySpec.
Import PyFloat SummaryGenerator.
Local Open Scope Z_scope.





(** "max = min(configured_max, max(48, 0.8 x word_count))", over the
    rationals. *)
Definition documented_max (cfg : config) (wc : Z) : Q :=
  Qmin (inject_Z (MAX_LEN cfg)) (Qmax 48 ((8 # 10) * inject_Z wc)).

(** "min = min(configured_min, max(24, 0.4 x word_count))". *)
Definition documented_min (cfg : config) (wc : Z) : Q :=
  Qmin (inject_Z (MIN_LEN cfg)) (Qmax 24 ((4 # 10) * inject_Z wc)).

(** The integers from [start], [n] of them. *)
Fixpoint zrange (n : nat) (start : Z) : list Z :=
  match n with
  | O => []
  | S n' => start :: zrange n' (start + 1)
  end.

(** The two products of [_dynamic_lengths] truncate to the exact floors. *)
Definition truncations_exact (wc : Z) : bool :=
  match py_int (fmul (of_Z wc) f0_8), py_int (fmul (of_Z wc) f0_4) with
  | inr a, inr b => (a =? 4 * wc / 5) && (b =? 2 * wc / 5)
  | _, _ => false
  end.

Definition word_bound : Z := 20000.
End SummarySpec.

Module SegmentationSpec.
Import PyFloat CustomerSegmentation.
Local Open Scope Z_scope.

(** [x >= y] on a column where nan sorts last. *)
Definition value_not_below (x y : float) : Prop :=
  is_nan y = true \/ (is_nan x = false /\ fge x y = true).

(** The order of the rows of a result: by label, ascending as strings, and
    within one label by [total_value], descending. *)
Definition presentation_le (a b : row) : Prop :=
  label_before (segment a) (segment b) = true
  \/ (segment a = segment b
      /\ value_not_below (total_value a) (total_value b)).

(** The rank of a tier in the specification's order: "High-Value Frequent"
    first, then "Occasional", then "Dormant/Low", then the generic
    labels. *)
Definition tier_rank (label : option string) : nat :=
  match label with
  | Some l =>
      if String.eqb l "High-Value Frequent" then 0
      else if String.eqb l "Occasional" then 1
      else if String.eqb l "Dormant/Low" then 2
      else 3
  | None => 4
  end.

(** "ordered by segment rank". *)
Definition ordered_by_tier_rank (rs : list row) : Prop :=
  Sorted (fun a b => (tier_rank (segment a) <= tier_rank (segment b))%nat) rs.

(** The frame after [df["cluster"] = clusters], for a repository that is not
    empty: the feature rows, each with its cluster id. *)
Definition clustered_rows
    (clock : Z) (customers : list Customer) (fit_predict : clustering) (k : Z)
  : result (list row) :=
  rbind (_build_feature_frame (_utcnow clock) customers) (fun df =>
  rbind (in_library (fit_predict (feature_matrix (rows df)) k)) (fun clusters =>
  set_cluster (rows df) clusters)).

(** The three means the labelling reads from one aggregate row. *)
Definition means3 (a : cluster_stats) : float * float * float :=
  (agg_total_value a, agg_total_quotes a, agg_days_since_last a).

(** The rank of [x] in a column, as [rank_min] gives it. *)
Definition rank_in (col : list float) (x : float) : float :=
  if is_nan x then nan
  else of_Z (1 + Z.of_nat (length (filter (fun y => flt y x) col))).

(** The score of a cluster with means [t] among clusters with means [T]. *)
Definition score_in (T : list (float * float * float))
    (t : float * float * float) : float :=
  fadd (fadd (fmul (rank_in (map (fun u => u.1.1) T) t.1.1) f0_6)
             (fmul (rank_in (map (fun u => u.1.2) T) t.1.2) f0_3))
       (fmul (rank_in (map (fun u => fneg u.2) T) (fneg t.2)) f0_1).




(** Every row of [rs1] has the label of the rows of the same customer in
    [rs2]. *)
Definition same_labels (rs1 rs2 : list row) : Prop :=
  forall r1 r2, r1 ∈ rs1 -> r2 ∈ rs2 ->
                customer_id r1 = customer_id r2 -> segment r1 = segment r2.



(** Equality of two cells of the column [segment]. *)
Definition label_eqb (a b : option string) : bool :=
  match a, b with
  | Some x, Some y => String.eqb x y
  | None, None => true
  | _, _ => false
  end.

(** [same_labels], decided. *)
Definition same_labelsb (rs1 rs2 : list row) : bool :=
  forallb (fun r1 =>
             forallb (fun r2 =>
                        implb (customer_id r1 =? customer_id r2)
                              (label_eqb (segment r1) (segment r2))) rs2) rs1.

(** Seeded k-means on as many distinct rows as clusters, here three: every
    row gets a cluster of its own, and cluster 0 is the one of the row at
    position [first], the row the seeded initialisation picks first. *)
Definition numbers_from_position (fit_predict : clustering) (first : nat)
  : Prop :=
  forall X : list (list float),
    length X = 3%nat -> NoDup X ->
    exists ids, fit_predict X 3 = inr ids
                /\ ids ≡ₚ [0; 1; 2]
                /\ ids !! first = Some 0.
End SegmentationSpec.

(* ===================================================================== *)
(** * Concrete processes, repositories and environments *)
(* ===================================================================== *)

Module SummaryScenarios.
Import PyFloat SummaryGenerator.
Local Open Scope Z_scope.

Definition amount_500 : float := S754_finite false 8796093022208000 (-44).

(** [{"name": "Window A", "category": "Casement", "quantity": 2}]. *)
Definition window_a : item :=
  {| name := Some "Window A"; category := Some "Casement";
     quantity := Some 2; width_ft := None; height_ft := None |}.

Definition offline : exn := Exn by_library "OSError" "offline".

(** No model can be obtained. *)
Definition dead_hub : hub := fun _ _ => raise offline.



(** A pipeline that raises when it is called. *)
Definition raising_pipeline : pipeline :=
  Pipeline (fun _ _ =>
              raise (Exn by_library "RuntimeError" "CUDA out of memory")).

(** Pipelines whose output cannot be decoded: no sequence, or a dict without
    the key. *)
Definition silent_pipeline : pipeline := Pipeline (fun _ _ => ok []).
Definition keyless_pipeline : pipeline :=
  Pipeline (fun _ _ => ok [ {[ "generated_text" := "Quote for Acme." ]} ]).

Definition fixed_pipeline : pipeline :=
  Pipeline (fun _ _ => ok [ {[ "summary_text" := " Quote for Acme. " ]} ]).

(** The hub fails twice, then answers. *)
Definition recovering_hub : hub :=
  fun n _ => if (n <? 2)%nat then raise offline else ok fixed_pipeline.

Definition config_with_token : config :=
  {| HF_MODEL := DEFAULT_MODEL; HF_TOKEN := Some "hf_secret";
     MAX_LEN := 140; MIN_LEN := 60; NUM_BEAMS := 4; NO_REPEAT_NGRAM := 3;
     DO_SAMPLE := false; TOP_P := TOP_P default_config;
     TEMPERATURE := f0_8 |}.

(** A text of [n] one-letter words. *)
Fixpoint words (n : nat) : string :=
  match n with
  | O => EmptyString
  | S n' => "w " ++ words n'
  end.

(** A transformers release that does not know the keyword [token]: it
    raises [TypeError] for it and loads the model when the credential comes
    as [use_auth_token]. *)
Definition legacy_hub : hub :=
  fun _ a =>
    match a with
    | token_kw _ =>
        raise (Exn by_library "TypeError"
                 "pipeline() got an unexpected keyword argument 'token'")
    | use_auth_token_kw _ => ok fixed_pipeline
    end.
End SummaryScenarios.

Module PriceScenarios.
Import PyFloat PricePredictor.
Local Open Scope Z_scope.

(** A process that has not loaded a model, on a machine with no artifact. *)
Definition fresh_process : state :=
  {| _model_cache := None; files := ∅; predict_calls := 0 |}.

Definition empty_database : database :=
  {| quotation_item := []; product := [] |}.

(** A regression that predicts [-5.0] for the first row and [12.345] for
    every other one. *)
Definition toy_model : model :=
  Model (fun X =>
           ok (match X with
               | [] => []
               | _ :: rest =>
                   S754_finite true 5 0
                   :: map (fun _ => S754_finite false 6949617174986097 (-49))
                        rest
               end)).

Definition toy_sklearn : sklearn :=
  {| fit := fun _ _ => ok toy_model;
     mean_absolute_error := fun _ _ => ok pos_zero |}.

Definition warm_process : state :=
  {| _model_cache := Some toy_model; files := ∅; predict_calls := 0 |}.

Definition window : item :=
  {| i_category := Some "Casement";
     i_width_ft := Some (of_Z 3);
     i_height_ft := Some (of_Z 4);
     i_quantity := Some 2;
     i_base_cost_per_sqft := None |}.

Definition casement : Product :=
  {| p_id := 1; p_name := "Window A"; p_category := "Casement";
     p_base_cost_per_sqft := of_Z 12 |}.

(** A line item of product 1. *)
Definition sold_line : QuotationItem :=
  {| qi_id := 1; qi_quotation_id := 1; qi_product_id := 1;
     qi_quantity := 2; qi_width_ft := of_Z 3; qi_height_ft := of_Z 4;
     qi_unit_price := of_Z 20; qi_line_total := of_Z 480 |}.

(** A line item whose product, 99, is not in the product table. *)
Definition dangling_line : QuotationItem :=
  {| qi_id := 2; qi_quotation_id := 1; qi_product_id := 99;
     qi_quantity := 1; qi_width_ft := of_Z 2; qi_height_ft := of_Z 2;
     qi_unit_price := of_Z 15; qi_line_total := of_Z 60 |}.

Definition seeded_database : database :=
  {| quotation_item := [dangling_line; sold_line]; product := [casement] |}.
End PriceScenarios.

Module SegmentationScenarios.
Import PyFloat CustomerSegmentation.
Local Open Scope Z_scope.

Definition today : Z := 1000 * microseconds_per_day.

(** A quotation of [amount], [age] days and five microseconds old. *)
Definition quote (amount age : Z) : Quotation :=
  {| total_amount := Some (of_Z amount);
     timestamp := Some {| micros := today - age * microseconds_per_day - 5;
                          tzaware := false |} |}.

Definition alpha : Customer :=
  {| c_id := 1; c_name := "Alpha";
     quotations := [quote 1000 9; quote 1000 1; quote 1000 5] |}.
Definition beta : Customer :=
  {| c_id := 2; c_name := "Beta"; quotations := [quote 200 40] |}.
Definition gamma : Customer :=
  {| c_id := 3; c_name := "Gamma"; quotations := [] |}.

(** A clustering that refuses fewer samples than clusters, as k-means
    does, and otherwise puts the i-th row in cluster [i mod k]. *)
Definition round_robin : clustering :=
  fun X k =>
    if Z.of_nat (length X) <? k
    then raise (Exn by_library "ValueError"
                  "n_samples should be >= n_clusters")
    else ok (map (fun i => Z.of_nat i mod k) (seq 0 (length X))).

(** Three customers of whom two tie on score: one quotation of 500, three
    quotations of 100, and two quotations of 500, the latest of each ten
    days old. *)
Definition one_off : Customer :=
  {| c_id := 1; c_name := "One-off"; quotations := [quote 500 10] |}.
Definition regular : Customer :=
  {| c_id := 2; c_name := "Regular";
     quotations := [quote 100 10; quote 100 20; quote 100 30] |}.
Definition major : Customer :=
  {| c_id := 3; c_name := "Major";
     quotations := [quote 500 10; quote 500 15] |}.

(** A clustering that returns the given ids whatever the rows are. *)
Definition fixed_clusters (ids : list Z) : clustering := fun _ _ => ok ids.

(** A quotation whose timestamp column is NULL. *)
Definition undated (amount : Z) : Quotation :=
  {| total_amount := Some (of_Z amount); timestamp := None |}.

(** A quotation with a timestamp that carries a time zone. *)
Definition aware_quote (amount age : Z) : Quotation :=
  {| total_amount := Some (of_Z amount);
     timestamp := Some {| micros := today - age * microseconds_per_day - 5;
                          tzaware := true |} |}.

(** A customer with a dated and an undated quotation. *)
Definition delta : Customer :=
  {| c_id := 4; c_name := "Delta";
     quotations := [quote 300 7; undated 50] |}.

(** The same with time-zone aware timestamps. *)
Definition epsilon : Customer :=
  {| c_id := 5; c_name := "Epsilon";
     quotations := [aware_quote 300 7; undated 50] |}.

(** Alpha, Beta and Gamma after the clustering step, with two clusters:
    Alpha and Gamma share cluster 0. *)
Definition clustered_trio : list row :=
  match SegmentationSpec.clustered_rows today [alpha; beta; gamma] round_robin 2 with
  | inr rs => rs
  | inl _ => []
  end.
End SegmentationScenarios.

Module AppScenarios.
Import PyFloat App SummaryScenarios PriceScenarios.
Local Open Scope Z_scope.

(** An interpreter that is given no string to parse. *)
Definition no_parse {A} : string -> result A :=
  fun _ => raise (Exn by_library "ValueError" "invalid literal").

(** Quotation 1: of user 7, for customer 1, with the line [sold_line]. *)
Definition quotation_1 : quotation_row :=
  {| q_user_id := 7; q_customer_id := 1; q_total_amount := of_Z 480;
     q_ai_summary := None |}.

Definition session_of (user_id : Z) (role : string) : gmap string sval :=
  {[ "user_id" := SInt user_id; "role" := SStr role;
     "username" := SStr "sam" ]}.

(** A process that holds a price model and no summarization pipeline,
    serving a request of user [user_id]. *)
Definition serving (user_id : Z) (role : string) : world :=
  {| session := session_of user_id role;
     flashes := [];
     quotation := {[ 1 := quotation_1 ]};
     predictor := warm_process;
     summarizer := SummaryGenerator.initial_state |}.

(** A request of a browser that has not logged in. *)
Definition anonymous : world :=
  {| session := ∅; flashes := []; quotation := {[ 1 := quotation_1 ]};
     predictor := warm_process;
     summarizer := SummaryGenerator.initial_state |}.

Definition customers_table : gmap Z string := {[ 1 := "Acme" ]}.

(** [{"product_id": id, "width_ft": 3, "height_ft": 4, "quantity": 2}]. *)
Definition line (id : Z) : json :=
  JObj [("product_id", JInt id); ("width_ft", JInt 3);
        ("height_ft", JInt 4); ("quantity", JInt 2)].


(** [{"quotation_id": qid}]. *)
Definition summary_request (qid : Z) : result json :=
  ok (JObj [("quotation_id", JInt qid)]).



Definition mia : user_row :=
  {| u_id := 1; u_username := "Manager"; u_email := "manager@reliant.com";
     u_password_hash := "hash-of-manager123"; u_role := "manager" |}.
Definition sam : user_row :=
  {| u_id := 2; u_username := "Sales Rep"; u_email := "sales@reliant.com";
     u_password_hash := "hash-of-sales123"; u_role := "sales" |}.

(** A password check that accepts a password for the hash named after
    it. *)
Definition toy_check (hash password : string) : bool :=
  String.eqb hash ("hash-of-" ++ password).

(** A view that answers with its own redirect and leaves a message. *)
Definition some_view : handler :=
  fun w => (ok (Redirect "customers"), flash "Customer created." "success" w).
End AppScenarios.

(* ===================================================================== *)
(** * Facts about binary64 arithmetic *)
(* ===================================================================== *)

Module PyFloatFacts.
Import PyFloat.
Local Open Scope Z_scope.









Lemma cents_nonneg m e : 0 <= cents m e.
Proof.
  unfold cents. destruct e as [|k|k].
  - lia.
  - assert (0 <= 2 ^ Z.pos k) by (apply Z.pow_nonneg; lia). nia.
  - unfold half_even_div.
    assert (Hd : 0 < 2 ^ Z.pos k) by (apply Z.pow_pos_nonneg; lia).
    assert (0 <= Z.pos m * 100 / 2 ^ Z.pos k)
      by (apply Z.div_pos; lia).
    destruct (2 * ((Z.pos m * 100) mod 2 ^ Z.pos k) ?= 2 ^ Z.pos k);
      [destruct (Z.even _)| |]; lia.
Qed.



End PyFloatFacts.

(* ===================================================================== *)
(** * summary_generator.py: properties *)
(* ===================================================================== *)

Module SummaryGeneratorFacts.
Import PyFloat SummaryGenerator SummarySpec SummaryScenarios.

Section Acquisition.
Variable cfg : config.
Variable transformers : hub.

(** One acquisition attempt calls the hub once or twice and touches
    nothing else. *)
Lemma pipeline_with_auth_calls token st :
  let r := _pipeline_with_auth transformers token st in
  _PIPELINE (snd r) = _PIPELINE st
  /\ (hub_calls st < hub_calls (snd r))%nat.
Proof.
  unfold _pipeline_with_auth, call_hub. run.
  destruct (transformers (hub_calls st) (token_kw token)) as [e|p]; simpl.
  - destruct (String.eqb _ _); simpl; split; auto; lia.
  - split; auto.
Qed.

Lemma load_pipeline_cached p st :
  _PIPELINE st = Some p ->
  _load_pipeline cfg transformers st = (inr (Some p), st).
Proof.
  intros H. unfold _load_pipeline. run. rewrite H. reflexivity.
Qed.

(** [_load_pipeline] never raises; with an empty cache it calls the hub
    again, and what it returns is what it leaves in the cache. *)
Lemma load_pipeline_uncached st :
  _PIPELINE st = None ->
  exists r st',
    _load_pipeline cfg transformers st = (inr r, st')
    /\ _PIPELINE st' = r
    /\ (hub_calls st < hub_calls st')%nat.
Proof.
  intros H. unfold _load_pipeline. run. rewrite H.
  pose proof (pipeline_with_auth_calls None st) as [_ H1]. simpl in H1.
  destruct (_pipeline_with_auth transformers None st) as [[e|p] st1];
    simpl in *.
  2:{ eexists _, _. split; [reflexivity|]. split; [reflexivity|exact H1]. }
  destruct (truthy (HF_TOKEN cfg)); simpl.
  2:{ eexists _, _. split; [reflexivity|]. split; [reflexivity|exact H1]. }
  match goal with
  | |- context [_pipeline_with_auth transformers ?t ?s] =>
      pose proof (pipeline_with_auth_calls t s) as [_ H2];
      destruct (_pipeline_with_auth transformers t s) as [[e2|p2] st2]
  end; simpl in *;
    eexists _, _; (split; [reflexivity|]); (split; [reflexivity|simpl; lia]).
Qed.

(** What the loader returns is what it leaves in the cache: a call that got
    no pipeline leaves the cache empty. *)
Lemma load_pipeline_returns_cache st :
  fst (_load_pipeline cfg transformers st)
  = inr (_PIPELINE (snd (_load_pipeline cfg transformers st))).
Proof.
  destruct (_PIPELINE st) as [p|] eqn:E.
  - rewrite (load_pipeline_cached p st E). simpl. rewrite E. reflexivity.
  - destruct (load_pipeline_uncached st E) as (r & st' & -> & Hr & _).
    simpl. rewrite Hr. reflexivity.
Qed.


(** After the loader, nothing in [_summarize] changes the state. *)
Lemma summarize_state text st :
  snd (_summarize cfg transformers text st)
  = snd (_load_pipeline cfg transformers st).
Proof.
  unfold _summarize. unfold bind at 1.
  destruct (_load_pipeline cfg transformers st) as [[e|[nlp|]] st1];
    simpl; [reflexivity| |reflexivity].
  run.
  destruct (_dynamic_lengths cfg _) as [e|[dmin dmax]]; simpl;
    [reflexivity|].
  destruct (in_library (call nlp _ _)) as [e|out]; simpl; [reflexivity|].
  destruct (first_summary_text out); reflexivity.
Qed.

Lemma generate_state customer_name product_list total_amount st :
  snd (generate_quote_summary cfg transformers customer_name product_list
         total_amount st)
  = snd (_load_pipeline cfg transformers st).
Proof.
  unfold generate_quote_summary, try_catch.
  rewrite <- (summarize_state
                (_build_source_text customer_name product_list total_amount)).
  destruct (_summarize _ _ _ _) as [[e|s] st1]; reflexivity.
Qed.

End Acquisition.



(** The three kinds of failure of the learned step, each on a process that
    holds a pipeline: the call raises, the output has no sequence, the
    output has no summary text.  Each yields the fallback. *)
Lemma generate_quote_summary_falls_back :
  Forall
    (fun p =>
       fst (generate_quote_summary default_config dead_hub "Acme" [window_a]
              amount_500
              {| _PIPELINE := Some p; _LAST_ERR := None; hub_calls := 1 |})
       = inr (_fallback_summary "Acme" [window_a] amount_500))
    [raising_pipeline; silent_pipeline; keyless_pipeline].
Proof. repeat constructor. Qed.


(** One call of [generate_quote_summary]: a cached pipeline is kept and the
    hub is left alone; with an empty cache the hub is called. *)
Lemma generate_hub_calls
    cfg transformers customer_name product_list total_amount st :
  let st' := snd (generate_quote_summary cfg transformers customer_name
                    product_list total_amount st) in
  match _PIPELINE st with
  | Some p => _PIPELINE st' = Some p /\ hub_calls st' = hub_calls st
  | None => (hub_calls st < hub_calls st')%nat
  end.
Proof.
  intros st'. subst st'. rewrite generate_state.
  destruct (_PIPELINE st) as [p|] eqn:E.
  - rewrite (load_pipeline_cached _ _ p st E). simpl. auto.
  - destruct (load_pipeline_uncached cfg transformers st E)
      as (r & st1 & -> & _ & Hlt). exact Hlt.
Qed.

(** C6, as amended.  Only success is sticky.  Take any two successive calls
    of [generate_quote_summary] in a process.  If the first leaves a
    pipeline in the cache, the second keeps it and does not call the hub.
    If the first leaves the cache empty, which is what a call does when all
    its attempts fail, the second calls the hub again. *)
Theorem acquisition_failure_not_cached
    cfg transformers name1 list1 amount1 name2 list2 amount2 st0 :
  let st1 := snd (generate_quote_summary cfg transformers name1 list1
                    amount1 st0) in
  let st2 := snd (generate_quote_summary cfg transformers name2 list2
                    amount2 st1) in
  match _PIPELINE st1 with
  | Some p => _PIPELINE st2 = Some p /\ hub_calls st2 = hub_calls st1
  | None => (hub_calls st1 < hub_calls st2)%nat
  end.
Proof.
  intros st1 st2. subst st2.
  apply (generate_hub_calls cfg transformers name2 list2 amount2 st1).
Qed.

(** C6 as stated fails: after a call on which the anonymous and the
    credential attempt both failed, the next call attempts acquisition
    again, succeeds, and returns the model's summary. *)
Lemma acquisition_retried_after_failure :
  let run := generate_quote_summary config_with_token recovering_hub
               "Acme" [window_a] amount_500 in
  let st1 := snd (run initial_state) in
  _PIPELINE st1 = None
  /\ hub_calls st1 = 2%nat
  /\ hub_calls (snd (run st1)) = 3%nat
  /\ _PIPELINE (snd (run st1)) = Some fixed_pipeline
  /\ fst (run st1) = inr "Quote for Acme.".
Proof. vm_compute. repeat split. Qed.







Lemma zrange_In n : forall start z,
  (start <= z < start + Z.of_nat n)%Z -> In z (zrange n start).
Proof.
  induction n as [|n IH]; intros start z H; simpl.
  - lia.
  - destruct (Z.eq_dec start z) as [->|Hne]; [left; reflexivity|].
    right. apply IH. lia.
Qed.

Lemma truncations_exact_below_bound :
  forallb truncations_exact (zrange (Z.to_nat word_bound) 1) = true.
Proof. vm_compute. reflexivity. Qed.

Lemma truncations_exact_range wc :
  (1 <= wc <= word_bound)%Z ->
  py_int (fmul (of_Z wc) f0_8) = inr (4 * wc / 5)%Z
  /\ py_int (fmul (of_Z wc) f0_4) = inr (2 * wc / 5)%Z.
Proof.
  intros H.
  pose proof truncations_exact_below_bound as Hall.
  rewrite forallb_forall in Hall.
  specialize (Hall wc). unfold truncations_exact in Hall.
  destruct (py_int (fmul (of_Z wc) f0_8)) as [e|a];
    destruct (py_int (fmul (of_Z wc) f0_4)) as [e'|b];
    try (exfalso; apply diff_false_true, Hall, zrange_In;
         unfold word_bound in *; lia).
  assert (Hin : In wc (zrange (Z.to_nat word_bound) 1))
    by (apply zrange_In; unfold word_bound in *; lia).
  apply Hall in Hin. apply andb_true_iff in Hin as [Ha Hb].
  apply Z.eqb_eq in Ha, Hb. subst. split; reflexivity.
Qed.

(** C8, as amended.  With [wc] the word count of the text (at least 1),
    [a] the product [wc * 0.8] truncated to an integer and [b] the product
    [wc * 0.4] truncated to an integer, the lengths are
    [max = min(MAX_LEN, max(48, a))] and [min = min(MIN_LEN, max(24, b))],
    and [min] is replaced by [max(16, max - 8)] when [min >= max].  Up to
    [word_bound] words the truncations are the exact floors of [4 wc / 5]
    and [2 wc / 5]. *)
Theorem dynamic_lengths_truncate cfg text :
  let wc := Z.max 1 (Z.of_nat (length (PyStr.split text))) in
  (forall a b,
     py_int (fmul (of_Z wc) f0_8) = inr a ->
     py_int (fmul (of_Z wc) f0_4) = inr b ->
     let dyn_max := Z.min (MAX_LEN cfg) (Z.max 48 a) in
     let dyn_min := Z.min (MIN_LEN cfg) (Z.max 24 b) in
     _dynamic_lengths cfg text
     = inr (if (dyn_min >=? dyn_max)%Z then Z.max 16 (dyn_max - 8)
            else dyn_min,
            dyn_max))
  /\ ((wc <= word_bound)%Z ->
      py_int (fmul (of_Z wc) f0_8) = inr (4 * wc / 5)%Z
      /\ py_int (fmul (of_Z wc) f0_4) = inr (2 * wc / 5)%Z).
Proof.
  intros wc. split.
  - intros a b Ha Hb dyn_max dyn_min. unfold _dynamic_lengths.
    fold wc. rewrite Ha. simpl. rewrite Hb. simpl.
    fold dyn_max. fold dyn_min.
    rewrite Z.geb_leb. reflexivity.
  - intros H. apply truncations_exact_range. subst wc. lia.
Qed.

Lemma dynamic_lengths_truncate_witness :
  _dynamic_lengths default_config (words 62) = inr (24, 49)%Z
  /\ py_int (fmul (of_Z 62) f0_8) = inr 49%Z.
Proof.
  destruct (dynamic_lengths_truncate default_config (words 62)) as [H1 H2].
  split.
  - apply (H1 49%Z 24%Z); reflexivity.
  - apply H2. vm_compute. discriminate.
Defined.

(** C8 as stated fails: for a text of 61 words the code derives 48 and 24,
    where the documented formulas give 48.8 and 24.4. *)
Lemma dynamic_lengths_not_documented_value :
  exists dyn_min dyn_max,
    _dynamic_lengths default_config (words 61) = inr (dyn_min, dyn_max)
    /\ ~ (inject_Z dyn_max == documented_max default_config 61)%Q
    /\ ~ (inject_Z dyn_min == documented_min default_config 61)%Q.
Proof.
  exists 24%Z, 48%Z. split; [vm_compute; reflexivity|].
  split; intros H; apply Qeq_bool_iff in H; vm_compute in H; discriminate.
Qed.

End SummaryGeneratorFacts.

(* ===================================================================== *)
(** * price_predictor.py: properties *)
(* ===================================================================== *)

Module PricePredictorFacts.
Import PyFloat PyFloatFacts PricePredictor PriceScenarios.

Lemma in_library_not_own {A} (r : result A) e :
  in_library r = inl e -> exn_origin e = by_library.
Proof.
  destruct r as [e'|a]; simpl; intros H; inversion H; reflexivity.
Qed.

Lemma joined_spec db qi p :
  (qi, p) ∈ joined db <->
  qi ∈ quotation_item db /\ p ∈ product db /\ qi_product_id qi = p_id p.
Proof.
  unfold joined. rewrite list_elem_of_In, in_flat_map. split.
  - intros (qi' & Hqi & Hin). apply in_map_iff in Hin as (p' & Heq & Hp).
    inversion Heq; subst.
    apply list_elem_of_In, list_elem_of_filter in Hp as [Hid Hp].
    apply bool_decide_unpack in Hid.
    rewrite list_elem_of_In. auto.
  - intros (Hqi & Hp & Hid). exists qi. split; [apply list_elem_of_In, Hqi|].
    apply in_map. apply list_elem_of_In, list_elem_of_filter. split; [|exact Hp].
    apply bool_decide_pack, Hid.
Qed.

(** C7.  Training raises [TrainingDataUnavailable] exactly when the join of
    line items with their products is empty.  When it returns a path, the
    artifact stored there was fitted on the joined rows and nothing else;
    a pair is in the join exactly when the line item and the product both
    exist and the line item references the product, so a line item whose
    product is missing contributes no row. *)
Theorem train_and_save_model_rows db sk out st :
  (fst (train_and_save_model db sk out st) = inl TrainingDataUnavailable
   <-> joined db = [])
  /\ (forall path,
        fst (train_and_save_model db sk out st) = inr path ->
        exists m,
          fit sk (map training_features (joined db))
                 (map training_target (joined db)) = inr m
          /\ files (snd (train_and_save_model db sk out st)) !! path
             = Some (Pickle m))
  /\ (forall qi p,
        (qi, p) ∈ joined db <->
        qi ∈ quotation_item db /\ p ∈ product db
        /\ qi_product_id qi = p_id p)
  /\ (forall qi,
        (forall p, p ∈ product db -> qi_product_id qi <> p_id p) ->
        forall p, (qi, p) ∉ joined db).
Proof.
  split; [|split; [|split]].
  - unfold train_and_save_model.
    destruct (joined db) as [|r rows] eqn:E; [split; reflexivity|].
    split; [|discriminate]. intros H. exfalso. revert H.
    unfold bind, lift, call_predict, write_pickle, ret. simpl.
    destruct (fit sk _ _) as [e|m] eqn:Ef; simpl.
    + intros H; inversion H.
    + destruct (predict m _) as [e|preds]; simpl.
      * intros H; inversion H.
      * destruct (mean_absolute_error sk _ _) as [e|mae]; simpl;
          intros H; inversion H.
  - intros path. unfold train_and_save_model.
    destruct (joined db) as [|r rows] eqn:E; [discriminate|].
    unfold bind, lift, call_predict, write_pickle, ret. simpl.
    destruct (fit sk _ _) as [e|m] eqn:Ef; simpl; [discriminate|].
    destruct (predict m _) as [e|preds]; simpl; [discriminate|].
    destruct (mean_absolute_error sk _ _) as [e|mae]; simpl; [discriminate|].
    intros H; inversion H; subst. exists m. split; [reflexivity|].
    apply lookup_insert_eq.
  - apply joined_spec.
  - intros qi Hno p Hin. apply joined_spec in Hin as (_ & Hp & Hid).
    exact (Hno p Hp Hid).
Qed.

(** Training on a table with a dangling line item: the frame holds the one
    row whose product exists, and the artifact goes to the default path. *)
Lemma training_skips_dangling_line :
  joined seeded_database = [(sold_line, casement)]
  /\ fst (train_and_save_model seeded_database toy_sklearn None fresh_process)
     = inr local_path
  /\ fst (train_and_save_model
            {| quotation_item := [dangling_line]; product := [casement] |}
            toy_sklearn None fresh_process)
     = inl TrainingDataUnavailable.
Proof. repeat split. Qed.





End PricePredictorFacts.

(* ===================================================================== *)
(** * customer_segmentation.py: properties *)
(* ===================================================================== *)

Module CustomerSegmentationFacts.
Import PyFloat CustomerSegmentation SegmentationSpec SegmentationScenarios.

Section SortBy.
Context {A : Type}.
Variable before : A -> A -> bool.
Hypothesis before_asym : forall x y, before x y = true -> before y x = false.

Lemma insert_by_HdRel x y l :
  before x y = false ->
  HdRel (fun a b => before b a = false) y l ->
  HdRel (fun a b => before b a = false) y (insert_by before x l).
Proof.
  intros Hyx Hl. destruct l as [|z l']; simpl.
  - constructor. exact Hyx.
  - destruct (before z x); constructor.
    + inversion Hl; assumption.
    + exact Hyx.
Qed.

Lemma insert_by_Sorted x l :
  Sorted (fun a b => before b a = false) l ->
  Sorted (fun a b => before b a = false) (insert_by before x l).
Proof.
  induction l as [|y l' IH]; intros Hs; simpl.
  - repeat constructor.
  - inversion Hs as [|? ? Hs' Hhd]; subst.
    destruct (before y x) eqn:E.
    + constructor; [apply IH, Hs'|].
      apply insert_by_HdRel; [|exact Hhd].
      apply before_asym, E.
    + constructor; [exact Hs|]. constructor. exact E.
Qed.

(** The output of [sort_by] never has an element directly ahead of one
    that had to come before it. *)
Lemma sort_by_Sorted l :
  Sorted (fun a b => before b a = false) (sort_by before l).
Proof.
  induction l as [|x l IH]; simpl; [constructor|].
  apply insert_by_Sorted, IH.
Qed.

Lemma insert_by_length x l :
  length (insert_by before x l) = S (length l).
Proof.
  induction l as [|y l IH]; simpl; [reflexivity|].
  destruct (before y x); simpl; [rewrite IH|]; reflexivity.
Qed.

Lemma sort_by_length l : length (sort_by before l) = length l.
Proof.
  induction l as [|x l IH]; simpl; [reflexivity|].
  rewrite insert_by_length, IH. reflexivity.
Qed.
End SortBy.

(** ** The float and string orders are total where they need to be *)

Lemma SFcompare_antisym x y :
  SFcompare y x = option_map CompOpp (SFcompare x y).
Proof.
  destruct x as [sx|sx| |sx mx ex], y as [sy|sy| |sy my ey]; simpl;
    try reflexivity;
    try (destruct sx; reflexivity); try (destruct sy; reflexivity);
    try (destruct sx, sy; reflexivity).
  destruct sx, sy; simpl; try reflexivity;
    rewrite (Z.compare_antisym ex ey);
    destruct (ex ?= ey)%Z; simpl; try reflexivity;
    rewrite (Pos.compare_cont_antisym mx my Eq); simpl;
    destruct (Pos.compare_cont Eq mx my); reflexivity.
Qed.

Lemma not_flt_fge x y :
  is_nan x = false -> is_nan y = false -> flt x y = false -> fge x y = true.
Proof.
  unfold flt, fge, SFltb, SFleb. rewrite (SFcompare_antisym x y).
  destruct x as [sx|sx| |sx mx ex], y as [sy|sy| |sy my ey];
    try discriminate; intros _ _;
    destruct (SFcompare _ _) as [[]|] eqn:E; simpl;
    try reflexivity; try discriminate;
    simpl in E; repeat match type of E with
                       | context [if ?b then _ else _] => destruct b
                       end; discriminate.
Qed.

Lemma float_desc_before_asym x y :
  float_desc_before x y = true -> float_desc_before y x = false.
Proof.
  unfold float_desc_before.
  destruct (is_nan x) eqn:Ex; [discriminate|].
  destruct (is_nan y) eqn:Ey; [reflexivity|].
  unfold flt, SFltb. rewrite (SFcompare_antisym y x).
  destruct (SFcompare y x) as [[]|]; simpl; congruence.
Qed.

Lemma float_desc_not_before x y :
  float_desc_before y x = false -> value_not_below x y.
Proof.
  unfold float_desc_before, value_not_below.
  destruct (is_nan y) eqn:Ey; [left; reflexivity|].
  destruct (is_nan x) eqn:Ex; [discriminate|].
  intros H. right. split; [reflexivity|]. apply not_flt_fge; assumption.
Qed.

Lemma string_ltb_asym a b : String.ltb a b = true -> String.ltb b a = false.
Proof.
  unfold String.ltb. rewrite (String.compare_antisym a b).
  destruct (String.compare b a); simpl; congruence.
Qed.

Lemma string_ltb_total a b :
  String.ltb b a = false -> a <> b -> String.ltb a b = true.
Proof.
  unfold String.ltb. rewrite (String.compare_antisym a b).
  destruct (String.compare b a) eqn:E; simpl; try congruence.
  apply String.compare_eq_iff in E. congruence.
Qed.

Lemma label_before_asym a b :
  label_before a b = true -> label_before b a = false.
Proof.
  destruct a as [a|], b as [b|]; simpl; try congruence.
  apply string_ltb_asym.
Qed.

Lemma label_before_irrefl a : label_before a a = false.
Proof.
  destruct a as [a|]; simpl; [|reflexivity].
  destruct (String.ltb a a) eqn:E; [|reflexivity].
  pose proof (string_ltb_asym _ _ E). congruence.
Qed.

Lemma presentation_before_asym x y :
  presentation_before x y = true -> presentation_before y x = false.
Proof.
  unfold presentation_before. intros H.
  apply orb_true_iff in H as [H|H].
  - rewrite (label_before_asym _ _ H). simpl.
    destruct (bool_decide (segment y = segment x)) eqn:E; [|reflexivity].
    apply bool_decide_eq_true in E. rewrite E in H.
    rewrite label_before_irrefl in H. discriminate.
  - apply andb_true_iff in H as [He Hf]. apply bool_decide_eq_true in He.
    rewrite He, label_before_irrefl. simpl.
    rewrite (float_desc_before_asym _ _ Hf). apply andb_false_r.
Qed.

Lemma presentation_not_before a b :
  presentation_before b a = false -> presentation_le a b.
Proof.
  unfold presentation_before, presentation_le. intros H.
  apply orb_false_iff in H as [Hl Hv].
  destruct (decide (segment a = segment b)) as [Heq|Hne].
  - right. split; [exact Heq|]. apply float_desc_not_before.
    rewrite bool_decide_eq_true_2 in Hv by congruence. exact Hv.
  - left. destruct (segment a) as [sa|], (segment b) as [sb|];
      simpl in *; try congruence.
    apply string_ltb_total; congruence.
Qed.

Lemma Sorted_impl {A} (R S : A -> A -> Prop) l :
  (forall a b, R a b -> S a b) -> Sorted R l -> Sorted S l.
Proof.
  intros HRS. induction 1 as [|x l Hs IH Hhd]; constructor; [exact IH|].
  destruct Hhd; constructor; auto.
Qed.

Lemma feature_rows_length now customers rs :
  feature_rows now customers = inr rs -> length rs = length customers.
Proof.
  revert rs. induction customers as [|c rest IH]; intros rs H; simpl in H.
  - inversion H. reflexivity.
  - destruct (feature_row_of now c) as [e|r]; simpl in H; [discriminate|].
    destruct (feature_rows now rest) as [e|rs']; simpl in H; [discriminate|].
    inversion H; subst. simpl. f_equal. apply IH. reflexivity.
Qed.

(** The feature frame always has the six feature columns, and one row per
    customer. *)
Lemma build_feature_frame_shape now customers frame :
  _build_feature_frame now customers = inr frame ->
  columns frame = feature_columns
  /\ length (rows frame) = length customers.
Proof.
  unfold _build_feature_frame. intros H.
  destruct (feature_rows now customers) as [e|rs] eqn:E; simpl in H;
    [discriminate|].
  apply feature_rows_length in E.
  destruct rs as [|r rs]; simpl in H; inversion H; subst; simpl; auto.
Qed.

(** C5, as amended.  Every result of [compute_customer_segments] is ordered
    by segment label, ascending as strings, and within one label by
    [total_value], descending. *)
Theorem segments_sorted_by_label clock customers fit_predict k df :
  compute_customer_segments clock customers fit_predict k = inr df ->
  Sorted presentation_le (rows df).
Proof.
  unfold compute_customer_segments. intros H.
  destruct (_build_feature_frame _ customers) as [e|frame] eqn:Ef;
    simpl in H; [discriminate|].
  apply build_feature_frame_shape in Ef as [Hcols _].
  destruct (empty frame) eqn:Ee.
  - inversion H; subst. unfold empty in Ee. rewrite Hcols in Ee.
    destruct (rows df); [constructor|discriminate].
  - destruct (in_library (fit_predict _ k)) as [e|clusters];
      simpl in H; [discriminate|].
    destruct (set_cluster (rows frame) clusters) as [e|rs];
      simpl in H; [discriminate|].
    inversion H; subst; simpl.
    eapply Sorted_impl; [|apply sort_by_Sorted, presentation_before_asym].
    intros a b. apply presentation_not_before.
Qed.

Local Open Scope Z_scope.

Lemma segments_sorted_by_label_witness :
  exists df,
    compute_customer_segments today [alpha; beta; gamma] round_robin 3
    = inr df
    /\ map customer_name (rows df) = ["Gamma"; "Alpha"; "Beta"]
    /\ Sorted presentation_le (rows df).
Proof.
  eexists. split; [vm_compute; reflexivity|]. split; [reflexivity|].
  apply (segments_sorted_by_label today [alpha; beta; gamma] round_robin 3).
  vm_compute. reflexivity.
Defined.

(** C5 as stated fails: with one customer per tier the rows come out as
    "Dormant/Low", "High-Value Frequent", "Occasional", which is not the
    order of the tiers' ranks. *)
Lemma segments_not_in_tier_order :
  exists df,
    compute_customer_segments today [alpha; beta; gamma] round_robin 3
    = inr df
    /\ map segment (rows df)
       = [Some "Dormant/Low"; Some "High-Value Frequent"; Some "Occasional"]
    /\ ~ ordered_by_tier_rank (rows df).
Proof.
  eexists. split; [vm_compute; reflexivity|]. split; [reflexivity|].
  unfold ordered_by_tier_rank. intros H.
  inversion H as [|? ? _ Hhd]; subst.
  inversion Hhd as [|? ? Hle]; subst.
  vm_compute in Hle. lia.
Qed.

(** C4, evaluated on the code.  With zero customers
    [compute_customer_segments] returns, without raising, an empty frame
    whose columns are the six feature columns: the column [segment] of the
    documented schema is missing. *)
Theorem zero_customers_frame clock fit_predict k :
  compute_customer_segments clock [] fit_predict k
  = inr {| columns := feature_columns; rows := [] |}
  /\ ("segment" ∉ feature_columns)
  /\ ("segment" ∈ result_columns)
  /\ length feature_columns = 6%nat.
Proof.
  split; [reflexivity|]. split; [|split; [|reflexivity]].
  - unfold feature_columns. rewrite !not_elem_of_cons.
    repeat split; try discriminate. apply not_elem_of_nil.
  - unfold result_columns. do 2 apply list_elem_of_further.
    apply list_elem_of_here.
Qed.

Lemma set_cluster_length rs clusters rs' :
  set_cluster rs clusters = inr rs' -> length rs' = length rs.
Proof.
  unfold set_cluster. destruct (bool_decide _) eqn:E; [|discriminate].
  apply bool_decide_eq_true in E. intros H. inversion H; subst.
  rewrite length_map, length_zip_with. lia.
Qed.

Lemma set_segment_length rs :
  length (set_segment rs (_label_clusters rs)) = length rs.
Proof.
  unfold set_segment, _label_clusters.
  rewrite length_map, length_zip_with, length_map. lia.
Qed.

Lemma empty_feature_frame frame :
  columns frame = feature_columns ->
  (empty frame = true <-> rows frame = []).
Proof.
  intros Hcols. unfold empty. rewrite Hcols.
  destruct (rows frame); simpl; split; congruence.
Qed.

Local Close Scope Z_scope.

Section StrictSort.
Context {A : Type}.
Variable lt : A -> A -> bool.
Hypothesis lt_asym : forall x y, lt x y = true -> lt y x = false.
Hypothesis lt_trans : forall x y z, lt x y = true -> lt y z = true -> lt x z = true.

Lemma insert_by_Permutation x l : insert_by lt x l ≡ₚ x :: l.
Proof.
  induction l as [|y l IH]; simpl; [reflexivity|].
  destruct (lt y x); [|reflexivity].
  rewrite IH. apply Permutation_swap.
Qed.

Lemma sort_by_Permutation l : sort_by lt l ≡ₚ l.
Proof.
  induction l as [|x l IH]; simpl; [reflexivity|].
  rewrite insert_by_Permutation, IH. reflexivity.
Qed.





End StrictSort.



(** ** The order on scores *)




Lemma insert_by_elem_of {A} (lt : A -> A -> bool) (x z : A) l :
  z ∈ insert_by lt x l <-> z = x \/ z ∈ l.
Proof. rewrite insert_by_Permutation, elem_of_cons. reflexivity. Qed.

(** The group keys are the cluster ids that occur, each once. *)
Lemma group_keys_elem_of rs c :
  c ∈ group_keys rs <-> exists r, r ∈ rs /\ cluster r = Some c.
Proof.
  induction rs as [|r0 rs IH]; simpl.
  - split; [intros H; inversion H|intros (r & H & _); inversion H].
  - assert (Hcons : (exists r, r ∈ r0 :: rs /\ cluster r = Some c)
                    <-> cluster r0 = Some c \/ c ∈ group_keys rs).
    { rewrite IH. split.
      - intros (r & Hr & Hc). apply elem_of_cons in Hr as [->|Hr]; eauto.
      - intros [Hc|(r & Hr & Hc)].
        + exists r0. split; [left|exact Hc].
        + exists r. split; [right; exact Hr|exact Hc]. }
    rewrite Hcons. destruct (cluster r0) as [c0|] eqn:E.
    + case_bool_decide as Hin.
      * split; [auto|]. intros [Hc|Hc]; [|exact Hc]. congruence.
      * rewrite insert_by_elem_of. split.
        -- intros [->|Hc]; auto.
        -- intros [Hc|Hc]; [left; congruence|right; exact Hc].
    + split; [auto|]. intros [Hc|Hc]; [discriminate|exact Hc].
Qed.

Lemma group_keys_NoDup rs : NoDup (group_keys rs).
Proof.
  induction rs as [|r0 rs IH]; simpl; [constructor|].
  destruct (cluster r0) as [c0|]; [|exact IH].
  case_bool_decide as Hin; [exact IH|].
  rewrite insert_by_Permutation. constructor; assumption.
Qed.

Lemma aggregate_clusters rs : map agg_cluster (aggregate rs) = group_keys rs.
Proof.
  unfold aggregate. rewrite map_map. simpl. apply map_id.
Qed.

Lemma map_zip3 {A} (f g h : A -> float) (F : float * float * float -> float) l :
  map F (zip (zip (map f l) (map g l)) (map h l))
  = map (fun a => F (f a, g a, h a)) l.
Proof. induction l as [|a l IH]; simpl; [reflexivity|]. f_equal. exact IH. Qed.

Lemma rank_min_rank_in col : rank_min col = map (rank_in col) col.
Proof. reflexivity. Qed.

(** The score of a cluster depends on its means and on the means of all
    clusters. *)
Lemma scores_score_in agg :
  scores agg = map (fun a => score_in (map means3 agg) (means3 a)) agg.
Proof.
  unfold scores. rewrite !rank_min_rank_in, !map_map.
  rewrite (map_zip3 _ _ _
             (fun t => let '(rv, rq, rr) := t in
                       fadd (fadd (fmul rv f0_6) (fmul rq f0_3))
                            (fmul rr f0_1))).
  apply map_ext. intros a. unfold score_in. rewrite !map_map. reflexivity.
Qed.



(** ** The label map *)

Lemma label_fold_other (l : list (nat * (cluster_stats * float)))
      (m : gmap Z string) (c : Z) :
  c ∉ map (fun ic => agg_cluster ic.2.1) l ->
  fold_left
    (fun (m : gmap Z string) (ic : nat * (cluster_stats * float)) =>
       <[ agg_cluster (fst (snd ic)) := label_at (fst ic) ]> m) l m !! c
  = m !! c.
Proof.
  revert m. induction l as [|ic l IH]; intros m Hc; simpl; [reflexivity|].
  simpl in Hc. apply not_elem_of_cons in Hc as [Hne Hc].
  rewrite IH by exact Hc. apply lookup_insert_ne. congruence.
Qed.

Lemma label_fold_lookup (l : list (nat * (cluster_stats * float)))
      (m : gmap Z string) i a s :
  NoDup (map (fun ic => agg_cluster ic.2.1) l) ->
  (i, (a, s)) ∈ l ->
  fold_left
    (fun (m : gmap Z string) (ic : nat * (cluster_stats * float)) =>
       <[ agg_cluster (fst (snd ic)) := label_at (fst ic) ]> m) l m
  !! agg_cluster a
  = Some (label_at i).
Proof.
  revert m. induction l as [|ic l IH]; intros m Hnd Hin; [inversion Hin|].
  simpl in Hnd. apply NoDup_cons in Hnd as [Hfresh Hnd].
  apply elem_of_cons in Hin as [<-|Hin]; simpl.
  - rewrite label_fold_other by exact Hfresh. apply lookup_insert_eq.
  - apply IH; assumption.
Qed.

(** The clusters ranked by score, as [label_map] ranks them. *)
Lemma label_map_lookup rs j a s :
  sort_by (fun y x => float_desc_before (snd y) (snd x))
    (zip (aggregate rs) (scores (aggregate rs))) !! j = Some (a, s) ->
  label_map rs !! agg_cluster a = Some (label_at j).
Proof.
  intros Hj. unfold label_map.
  set (ranked := sort_by _ (zip (aggregate rs) (scores (aggregate rs)))) in *.
  assert (Hperm : ranked ≡ₚ zip (aggregate rs) (scores (aggregate rs)))
    by apply sort_by_Permutation.
  apply (label_fold_lookup _ _ j a s).
  - replace (map (fun ic : nat * (cluster_stats * float) =>
                    agg_cluster ic.2.1)
               (zip (seq 0 (length ranked)) ranked))
      with (map (fun x : cluster_stats * float => agg_cluster x.1) ranked).
    + rewrite Hperm.
      replace (map (fun x : cluster_stats * float => agg_cluster x.1)
                 (zip (aggregate rs) (scores (aggregate rs))))
        with (group_keys rs); [apply group_keys_NoDup|].
      rewrite <- aggregate_clusters.
      rewrite <- (map_map fst agg_cluster).
      change (map fst ?l) with (l.*1).
      rewrite fst_zip; [reflexivity|].
      rewrite scores_score_in, length_map. reflexivity.
    + rewrite <- (map_map snd (fun x : cluster_stats * float => agg_cluster x.1)).
      change (map snd ?l) with (l.*2).
      rewrite snd_zip; [reflexivity|]. rewrite length_seq. reflexivity.
  - apply list_elem_of_lookup. exists j.
    apply lookup_zip_Some. split; [|exact Hj].
    apply lookup_seq. split; [reflexivity|].
    apply lookup_lt_Some in Hj. exact Hj.
Qed.








(** ** From the customers to the labelled rows *)

Lemma feature_rows_ids now customers rs :
  feature_rows now customers = inr rs ->
  map customer_id rs = map c_id customers.
Proof.
  revert rs. induction customers as [|c rest IH]; intros rs H; simpl in H.
  - inversion H. reflexivity.
  - unfold feature_row_of in H.
    destruct (sorted_quotations now (quotations c)) as [e|qs]; simpl in H;
      [discriminate|].
    destruct (feature_rows now rest) as [e|rs']; simpl in H; [discriminate|].
    inversion H; subst. simpl. f_equal. apply IH. reflexivity.
Qed.

Lemma set_cluster_rows rs clusters rs' :
  set_cluster rs clusters = inr rs' ->
  map customer_id rs' = map customer_id rs
  /\ Forall (fun r => is_Some (cluster r)) rs'.
Proof.
  unfold set_cluster. destruct (bool_decide _) eqn:E; [|discriminate].
  apply bool_decide_eq_true in E. intros H. inversion H; subst. clear H.
  revert clusters E. induction rs as [|r rs IH]; intros [|c cl] E;
    simpl in *; try discriminate; [split; [reflexivity|constructor]|].
  destruct (IH cl) as [Hids Hsome]; [lia|].
  split; [f_equal; exact Hids|]. constructor; [eauto|exact Hsome].
Qed.



Local Open Scope Z_scope.







(** [same_labelsb] holds whenever [same_labels] does. *)
Lemma same_labelsb_complete rs1 rs2 :
  same_labels rs1 rs2 -> same_labelsb rs1 rs2 = true.
Proof.
  intros H. unfold same_labelsb.
  apply forallb_forall. intros r1 Hr1. apply forallb_forall. intros r2 Hr2.
  destruct (customer_id r1 =? customer_id r2) eqn:E; [|reflexivity].
  apply Z.eqb_eq in E. simpl.
  rewrite (H r1 r2) by (try apply list_elem_of_In; assumption).
  destruct (segment r2); simpl; [apply String.eqb_refl|reflexivity].
Qed.


(** [compute_customer_segments] uses the clustering only through what it
    returns for the feature matrix. *)
Lemma compute_with_clusters clock customers fit_predict k frame ids :
  _build_feature_frame (_utcnow clock) customers = inr frame ->
  fit_predict (feature_matrix (rows frame)) k = inr ids ->
  compute_customer_segments clock customers fit_predict k
  = compute_customer_segments clock customers (fixed_clusters ids) k.
Proof.
  intros Hf H. unfold compute_customer_segments. rewrite Hf. simpl.
  destruct (empty frame); [reflexivity|].
  rewrite H. reflexivity.
Qed.

Lemma permutations_of_three (ids : list Z) :
  ids ≡ₚ [0; 1; 2] ->
  ids = [0; 1; 2] \/ ids = [0; 2; 1] \/ ids = [1; 0; 2]
  \/ ids = [1; 2; 0] \/ ids = [2; 0; 1] \/ ids = [2; 1; 0].
Proof.
  intros Hp.
  pose proof (Permutation_length Hp) as Hlen.
  assert (Hnd : NoDup ids).
  { rewrite Hp. repeat constructor; rewrite ?not_elem_of_cons;
      repeat split; try discriminate; apply not_elem_of_nil. }
  destruct ids as [|a [|b [|c [|]]]]; try discriminate.
  assert (Ha : a ∈ [0; 1; 2]) by (rewrite <- Hp; repeat constructor).
  assert (Hb : b ∈ [0; 1; 2]) by (rewrite <- Hp; repeat constructor).
  assert (Hc : c ∈ [0; 1; 2]) by (rewrite <- Hp; repeat constructor).
  apply NoDup_cons in Hnd as [Hab Hnd]. apply NoDup_cons in Hnd as [Hbc _].
  assert (Hne : a <> b /\ a <> c /\ b <> c).
  { repeat split; intros ->; [apply Hab|apply Hab|apply Hbc];
      repeat constructor. }
  clear Hab Hbc.
  rewrite !elem_of_cons in Ha, Hb, Hc.
  destruct Ha as [->|[->|[->|Ha]]]; try (inversion Ha; fail);
    destruct Hb as [->|[->|[->|Hb]]]; try (inversion Hb; fail);
    destruct Hc as [->|[->|[->|Hc]]]; try (inversion Hc; fail);
    first [solve [exfalso; intuition congruence]
          | solve [repeat (first [left; reflexivity | right; reflexivity | right])]].
Qed.

(** The clusters a position-numbering clustering returns for three given
    customers. *)
Lemma position_numbered_clusters fit_predict first customers frame :
  numbers_from_position fit_predict first ->
  _build_feature_frame (_utcnow today) customers = inr frame ->
  length (feature_matrix (rows frame)) = 3%nat ->
  NoDup (feature_matrix (rows frame)) ->
  exists ids,
    compute_customer_segments today customers fit_predict 3
    = compute_customer_segments today customers (fixed_clusters ids) 3
    /\ ids !! first = Some 0
    /\ (ids = [0; 1; 2] \/ ids = [0; 2; 1] \/ ids = [1; 0; 2]
        \/ ids = [1; 2; 0] \/ ids = [2; 0; 1] \/ ids = [2; 1; 0]).
Proof.
  intros Hpos Hf Hlen Hnd.
  destruct (Hpos _ Hlen Hnd) as (ids & Hfp & Hperm & Hfirst).
  exists ids. split; [|split].
  - eapply compute_with_clusters; eassumption.
  - exact Hfirst.
  - apply permutations_of_three, Hperm.
Qed.

(** Proves that the rows of a concrete feature matrix are distinct. *)
Ltac distinct_rows :=
  vm_compute;
  repeat (apply NoDup_cons_2;
          [let H := fresh in
           intros H;
           repeat (apply elem_of_cons in H as [H|H]; [discriminate H|]);
           inversion H|]);
  apply NoDup_nil_2.

(** The cluster ids a position-numbering clustering can return for the
    concrete customers [cs]. *)
Ltac clusters_of Hpos cs ids Hrun Hfirst :=
  let Hids := fresh "Hids" in
  edestruct position_numbered_clusters with (customers := cs)
    as (ids & Hrun & Hfirst & Hids);
  [exact Hpos | vm_compute; reflexivity | reflexivity | distinct_rows |];
  destruct Hids as [->|[->|[->|[->|[->| ->]]]]]; try discriminate Hfirst.

(** Runs both orders and compares the labels. *)
Ltac labels_differ Hrun1 Hrun2 :=
  split; [rewrite Hrun1; vm_compute; reflexivity|];
  split; [rewrite Hrun2; vm_compute; reflexivity|];
  let H := fresh in
  intros H; apply same_labelsb_complete in H; vm_compute in H; discriminate H.

(** C9 fails for every clustering that numbers its clusters from a row
    position: of two customers whose clusters tie on score, the one read at
    that position gets the better label. *)
Lemma labels_follow_reading_order fit_predict first :
  (first < 3)%nat ->
  numbers_from_position fit_predict first ->
  exists customers1 customers2 df1 df2,
    customers1 ≡ₚ customers2
    /\ compute_customer_segments today customers1 fit_predict 3 = inr df1
    /\ compute_customer_segments today customers2 fit_predict 3 = inr df2
    /\ ~ same_labels (rows df1) (rows df2).
Proof.
  intros Hlt Hpos.
  destruct first as [|[|[|first]]]; [| | |lia].
  - exists [one_off; regular; major], [regular; one_off; major].
    clusters_of Hpos [one_off; regular; major] ids1 Hrun1 Hfirst1;
    clusters_of Hpos [regular; one_off; major] ids2 Hrun2 Hfirst2;
    (eexists _, _; split; [apply Permutation_swap|]);
    labels_differ Hrun1 Hrun2.
  - exists [major; one_off; regular], [major; regular; one_off].
    clusters_of Hpos [major; one_off; regular] ids1 Hrun1 Hfirst1;
    clusters_of Hpos [major; regular; one_off] ids2 Hrun2 Hfirst2;
    (eexists _, _; split; [apply perm_skip, Permutation_swap|]);
    labels_differ Hrun1 Hrun2.
  - exists [major; regular; one_off], [major; one_off; regular].
    clusters_of Hpos [major; regular; one_off] ids1 Hrun1 Hfirst1;
    clusters_of Hpos [major; one_off; regular] ids2 Hrun2 Hfirst2;
    (eexists _, _; split; [apply perm_skip, Permutation_swap|]);
    labels_differ Hrun1 Hrun2.
Qed.

(** [round_robin] numbers its clusters from the first row. *)
Lemma round_robin_numbers_from_position : numbers_from_position round_robin 0.
Proof.
  intros X Hlen _. unfold round_robin. rewrite Hlen. simpl.
  eexists. split; [reflexivity|]. split; [reflexivity|reflexivity].
Qed.

Section KMeansContract.
Variable fit_predict : clustering.
(** scikit-learn's k-means refuses fewer samples than clusters. *)
Hypothesis needs_k_samples :
  forall X k, Z.of_nat (length X) < k -> exists e, fit_predict X k = inl e.

(** C10.  Given that k-means refuses fewer samples than clusters: with at
    least one customer and fewer customers than [k],
    [compute_customer_segments] raises; and a result without rows is
    returned only for zero customers. *)
Theorem fewer_customers_than_clusters clock customers k :
  customers <> [] ->
  Z.of_nat (length customers) < k ->
  (exists e, compute_customer_segments clock customers fit_predict k = inl e)
  /\ forall clock' customers' k' df,
       compute_customer_segments clock' customers' fit_predict k' = inr df ->
       (rows df = [] <-> customers' = []).
Proof.
  intros Hne Hlt. split.
  - unfold compute_customer_segments.
    destruct (_build_feature_frame _ customers) as [e|frame] eqn:Ef;
      simpl; [eauto|].
    apply build_feature_frame_shape in Ef as [Hcols Hlen].
    destruct (empty frame) eqn:Ee.
    { apply empty_feature_frame in Ee; [|exact Hcols].
      rewrite Ee in Hlen. destruct customers; [congruence|discriminate]. }
    destruct (needs_k_samples (feature_matrix (rows frame)) k) as [e He].
    { unfold feature_matrix. rewrite length_map, Hlen. exact Hlt. }
    rewrite He. simpl. eauto.
  - intros clock' customers' k' df H.
    unfold compute_customer_segments in H.
    destruct (_build_feature_frame _ customers') as [e|frame] eqn:Ef;
      simpl in H; [discriminate|].
    apply build_feature_frame_shape in Ef as [Hcols Hlen].
    destruct (empty frame) eqn:Ee.
    { apply empty_feature_frame in Ee; [|exact Hcols].
      inversion H; subst. rewrite Ee in Hlen.
      destruct customers'; [tauto|discriminate]. }
    assert (Hrows : rows frame <> []).
    { intros H0. apply (empty_feature_frame _ Hcols) in H0. congruence. }
    destruct (in_library _) as [e|clusters]; simpl in H; [discriminate|].
    destruct (set_cluster (rows frame) clusters) as [e|rs'] eqn:Ec;
      simpl in H; [discriminate|].
    apply set_cluster_length in Ec.
    inversion H; subst; simpl.
    assert (Hn : length (sort_by presentation_before
                           (set_segment rs' (_label_clusters rs')))
                 = length customers').
    { rewrite sort_by_length, set_segment_length. congruence. }
    destruct (rows frame) as [|r rs]; [congruence|]. simpl in Hlen.
    split; intros H0.
    + rewrite H0 in Hn. destruct customers'; [reflexivity|discriminate].
    + subst customers'. discriminate.
Qed.
End KMeansContract.

Lemma round_robin_needs_k_samples X k :
  Z.of_nat (length X) < k -> exists e, round_robin X k = inl e.
Proof.
  intros H. unfold round_robin.
  destruct (Z.ltb_spec (Z.of_nat (length X)) k); [|lia].
  eexists. reflexivity.
Qed.

Lemma fewer_customers_than_clusters_witness :
  exists e,
    compute_customer_segments today [alpha; beta] round_robin 3 = inl e.
Proof.
  apply (fewer_customers_than_clusters round_robin
           round_robin_needs_k_samples today [alpha; beta] 3).
  - discriminate.
  - simpl. lia.
Defined.

End CustomerSegmentationFacts.

(* ===================================================================== *)
(** * summary_generator.py: further properties *)
(* ===================================================================== *)

Module SummaryGeneratorBehaviour.
Import PyFloat SummaryGenerator SummarySpec SummaryScenarios SummaryGeneratorFacts.
Local Open Scope Z_scope.

(** X1.  For a text of up to [word_bound] words [_dynamic_lengths] returns a
    pair whose maximum is at most [MAX_LEN]; the minimum is below the
    maximum exactly when [MAX_LEN] is above 16 or [MIN_LEN] is below
    [MAX_LEN].  With other settings the step that is to ensure
    [dyn_min < dyn_max] leaves [dyn_min >= dyn_max]. *)
Theorem dynamic_lengths_ordered cfg text :
  Z.of_nat (length (PyStr.split text)) <= word_bound ->
  exists dyn_min dyn_max,
    _dynamic_lengths cfg text = inr (dyn_min, dyn_max)
    /\ dyn_max <= MAX_LEN cfg
    /\ (dyn_min < dyn_max <-> 16 < MAX_LEN cfg \/ MIN_LEN cfg < MAX_LEN cfg).
Proof.
  intros Hwc.
  set (wc := Z.max 1 (Z.of_nat (length (PyStr.split text)))).
  destruct (truncations_exact_range wc) as [Ha Hb].
  { subst wc. unfold word_bound in *. lia. }
  unfold _dynamic_lengths. fold wc. rewrite Ha. simpl. rewrite Hb. simpl.
  assert (H8 : 0 <= 4 * wc / 5) by (apply Z.div_pos; subst wc; lia).
  assert (H4 : 0 <= 2 * wc / 5) by (apply Z.div_pos; subst wc; lia).
  eexists _, _. split; [reflexivity|].
  generalize dependent (4 * wc / 5). generalize dependent (2 * wc / 5).
  intros b _ Hb' a _ Ha'. split; [lia|].
  destruct (Z.leb_spec (Z.min (MAX_LEN cfg) (Z.max 48 a))
              (Z.min (MIN_LEN cfg) (Z.max 24 b))); lia.
Qed.

Lemma dynamic_lengths_ordered_witness :
  exists dyn_min dyn_max,
    _dynamic_lengths default_config (words 62) = inr (dyn_min, dyn_max)
    /\ dyn_max <= 140
    /\ (dyn_min < dyn_max <-> 16 < 140 \/ 60 < 140).
Proof.
  apply (dynamic_lengths_ordered default_config (words 62)).
  vm_compute. discriminate.
Defined.


Lemma pipeline_with_auth_at_most_two transformers token st :
  let r := _pipeline_with_auth transformers token st in
  (hub_calls (snd r) <= hub_calls st + 2)%nat
  /\ _PIPELINE (snd r) = _PIPELINE st
  /\ _LAST_ERR (snd r) = _LAST_ERR st.
Proof.
  unfold _pipeline_with_auth, call_hub. run.
  destruct (transformers (hub_calls st) (token_kw token)) as [e|p]; simpl.
  - destruct (String.eqb _ _); simpl; repeat split; lia.
  - repeat split; lia.
Qed.

(** X2.  One call of [generate_quote_summary] calls
    [transformers.pipeline] at most twice when no token is configured and
    at most four times when one is; with a pipeline in the cache it leaves
    the whole process state as it was. *)
Theorem generate_hub_call_bound
    cfg transformers customer_name product_list total_amount st :
  let st' := snd (generate_quote_summary cfg transformers customer_name
                    product_list total_amount st) in
  (hub_calls st' <= hub_calls st + (if truthy (HF_TOKEN cfg) then 4 else 2))%nat
  /\ (forall p, _PIPELINE st = Some p -> st' = st).
Proof.
  intros st'. subst st'. rewrite generate_state. split.
  - unfold _load_pipeline. run.
    destruct (_PIPELINE st) as [p|]; simpl;
      [destruct (truthy _); lia|].
    pose proof (pipeline_with_auth_at_most_two transformers None st)
      as (H1 & _ & _). simpl in H1.
    destruct (_pipeline_with_auth transformers None st) as [[e|p] st1];
      simpl in *; [|destruct (truthy _); lia].
    destruct (truthy (HF_TOKEN cfg)); simpl; [|lia].
    match goal with
    | |- context [_pipeline_with_auth transformers ?t ?s] =>
        pose proof (pipeline_with_auth_at_most_two transformers t s)
          as (H2 & _ & _);
        destruct (_pipeline_with_auth transformers t s) as [[e2|p2] st2]
    end; simpl in *; lia.
  - intros p Hp. rewrite (load_pipeline_cached _ _ p st Hp). reflexivity.
Qed.

(** X3.  When [transformers.pipeline] rejects the keyword [token] with a
    [TypeError], the loader calls it once more with the credential passed
    as [use_auth_token]; if that call returns a pipeline, the pipeline is
    cached, [_LAST_ERR] is cleared and no further attempt is made. *)
Theorem load_pipeline_legacy_keyword cfg transformers st e p :
  _PIPELINE st = None ->
  transformers (hub_calls st) (token_kw None) = inl e ->
  exn_class e = "TypeError" ->
  transformers (S (hub_calls st)) (use_auth_token_kw None) = inr p ->
  _load_pipeline cfg transformers st
  = (inr (Some p),
     {| _PIPELINE := Some p; _LAST_ERR := None;
        hub_calls := S (S (hub_calls st)) |}).
Proof.
  intros Hnone H1 Hty H2.
  unfold _load_pipeline, _pipeline_with_auth, call_hub. run.
  rewrite Hnone, H1. simpl. rewrite Hty. simpl. rewrite H2. reflexivity.
Qed.

Lemma load_pipeline_legacy_keyword_witness :
  _load_pipeline default_config legacy_hub initial_state
  = (inr (Some fixed_pipeline),
     {| _PIPELINE := Some fixed_pipeline; _LAST_ERR := None;
        hub_calls := 2 |}).
Proof.
  apply (load_pipeline_legacy_keyword default_config legacy_hub
           initial_state
           (Exn by_library "TypeError"
              "pipeline() got an unexpected keyword argument 'token'")
           fixed_pipeline); reflexivity.
Defined.



End SummaryGeneratorBehaviour.

(* ===================================================================== *)
(** * price_predictor.py: further properties *)
(* ===================================================================== *)

Module PricePredictorBehaviour.
Import PyFloat PyFloatFacts PricePredictor PriceScenarios PricePredictorFacts.
Local Open Scope Z_scope.

(** Reading the file that [PRICE_MODEL_PATH] names. *)
Lemma load_model_explicit_file path db sk st f :
  files st !! path = Some f ->
  _load_model (Some path) db sk st = read_pickle path st.
Proof.
  intros Hf. unfold _load_model, exists_file, bind, get, ret. simpl.
  rewrite Hf. simpl. rewrite ?bool_decide_true by eauto. reflexivity.
Qed.

(** X5.  When [PRICE_MODEL_PATH] names an existing file, [_load_model]
    reads that file and nothing else: it returns the model stored there, or
    raises the unpickling error when the file holds no model, whatever
    [instance/price_model.pkl], the database and scikit-learn would give,
    and it changes nothing. *)
Theorem load_model_explicit_path path db sk st f :
  files st !! path = Some f ->
  _load_model (Some path) db sk st
  = (match f with
     | Pickle m => inr m
     | Garbage => inl (Exn by_library "UnpicklingError" "invalid load key")
     end, st).
Proof.
  intros Hf. rewrite (load_model_explicit_file path db sk st f Hf).
  unfold read_pickle, bind, get, ret, throw. simpl. rewrite Hf.
  destruct f; reflexivity.
Qed.

Lemma load_model_explicit_path_witness :
  _load_model (Some "/srv/model.pkl") empty_database toy_sklearn
    {| _model_cache := None;
       files := {[ "/srv/model.pkl" := Pickle toy_model ]};
       predict_calls := 0 |}
  = (inr toy_model,
     {| _model_cache := None;
        files := {[ "/srv/model.pkl" := Pickle toy_model ]};
        predict_calls := 0 |}).
Proof.
  apply (load_model_explicit_path "/srv/model.pkl" empty_database toy_sklearn
           _ (Pickle toy_model)).
  reflexivity.
Defined.

(** No file at [PRICE_MODEL_PATH], or the variable not set. *)
Lemma load_model_without_explicit MODEL_PATH db sk st :
  (forall p, MODEL_PATH = Some p -> files st !! p = None) ->
  _load_model MODEL_PATH db sk st
  = (here <- exists_file local_path ;;
     if here then read_pickle local_path
     else (train_and_save_model db sk None ;;; read_pickle local_path)) st.
Proof.
  intros H. unfold _load_model. destruct MODEL_PATH as [p|]; [|reflexivity].
  unfold bind at 1. unfold exists_file at 1. unfold bind, get, ret. simpl.
  rewrite (H p eq_refl). reflexivity.
Qed.

(** X6.  Cold start.  With no artifact on disk and training data in the
    database, [_load_model] trains, stores the fitted model at
    [instance/price_model.pkl], leaves every other file alone and returns
    the model; the next [_load_model] reads the stored model back and
    neither trains nor predicts again. *)
Theorem load_model_trains_once MODEL_PATH db sk st m preds mae :
  (forall p, MODEL_PATH = Some p -> files st !! p = None) ->
  files st !! local_path = None ->
  joined db <> [] ->
  fit sk (map training_features (joined db))
         (map training_target (joined db)) = inr m ->
  predict m (map training_features (joined db)) = inr preds ->
  mean_absolute_error sk (map training_target (joined db)) preds = inr mae ->
  let st1 := {| _model_cache := _model_cache st;
                files := <[ local_path := Pickle m ]> (files st);
                predict_calls := S (predict_calls st) |} in
  _load_model MODEL_PATH db sk st = (inr m, st1)
  /\ _load_model MODEL_PATH db sk st1 = (inr m, st1).
Proof.
  intros Hexp Hloc Hrows Hfit Hpred Hmae st1.
  split.
  - rewrite load_model_without_explicit by exact Hexp.
    unfold exists_file, train_and_save_model, read_pickle, bind, get, ret,
      lift, call_predict, write_pickle. cbn [files fst snd].
    rewrite Hloc. rewrite bool_decide_false by (intros [x Hx]; discriminate).
    destruct (joined db) as [|r rows] eqn:E; [congruence|].
    rewrite Hfit. cbn [in_library]. rewrite Hpred. cbn [in_library].
    rewrite Hmae. cbn [in_library files].
    rewrite lookup_insert_eq. reflexivity.
  - destruct MODEL_PATH as [p|].
    + destruct (decide (p = local_path)) as [->|Hne].
      * rewrite (load_model_explicit_file local_path db sk st1 (Pickle m))
          by apply lookup_insert_eq.
        unfold read_pickle, bind, get, ret. simpl.
        rewrite lookup_insert_eq. reflexivity.
      * rewrite load_model_without_explicit.
        2:{ intros p' Hp'. inversion Hp'; subst p'. subst st1. simpl.
            rewrite lookup_insert_ne by congruence. apply Hexp. reflexivity. }
        unfold exists_file, read_pickle, bind, get, ret. simpl.
        rewrite lookup_insert_eq. simpl. 
        rewrite ?bool_decide_true by eauto. rewrite ?lookup_insert_eq.
        reflexivity.
    + rewrite load_model_without_explicit by discriminate.
      unfold exists_file, read_pickle, bind, get, ret. simpl.
      rewrite lookup_insert_eq. simpl.
      rewrite ?bool_decide_true by eauto. rewrite ?lookup_insert_eq.
      reflexivity.
Qed.


Lemma load_model_trains_once_witness :
  let st1 := {| _model_cache := None;
                files := {[ local_path := Pickle toy_model ]};
                predict_calls := 1 |} in
  _load_model None seeded_database toy_sklearn fresh_process
  = (inr toy_model, st1)
  /\ _load_model None seeded_database toy_sklearn st1 = (inr toy_model, st1).
Proof.
  apply (load_model_trains_once None seeded_database toy_sklearn
           fresh_process toy_model [S754_finite true 5 0] pos_zero).
  - discriminate.
  - reflexivity.
  - discriminate.
  - reflexivity.
  - reflexivity.
  - reflexivity.
Defined.


(** X8.  A call of [predict_quote_total] that returns a total leaves a
    model in the process cache.  From then on the function reads no file
    and trains nothing: its result depends on the cached model and the
    items only, so the artifact on disk, [PRICE_MODEL_PATH], the database
    and scikit-learn can change without effect, and the cache and the
    files are left as they are. *)
Theorem predict_quote_total_uses_cache MODEL_PATH db sk product_list st :
  (forall total,
     fst (predict_quote_total MODEL_PATH db sk product_list st) = inr total ->
     is_Some (_model_cache
                (snd (predict_quote_total MODEL_PATH db sk product_list st))))
  /\ (forall m,
        _model_cache st = Some m ->
        let r := predict_quote_total MODEL_PATH db sk product_list st in
        _model_cache (snd r) = Some m
        /\ files (snd r) = files st
        /\ forall MODEL_PATH' db' sk' st',
             _model_cache st' = Some m ->
             fst (predict_quote_total MODEL_PATH' db' sk' product_list st')
             = fst r).
Proof.
  split.
  - intros total. unfold predict_quote_total, cached_model, bind, get, ret,
      set_model_cache, call_predict.
    cbn [fst snd].
    destruct (_model_cache st) as [m|] eqn:Hc.
    + destruct (map features product_list); cbn [fst snd];
        [rewrite Hc; eauto|].
      destruct (in_library (predict m _)); cbn [fst snd _model_cache];
        rewrite Hc; eauto.
    + destruct (_load_model MODEL_PATH db sk st) as [[e|m] st1];
        cbn [fst snd]; [discriminate|].
      destruct (map features product_list); cbn [fst snd _model_cache];
        [eauto|].
      destruct (in_library (predict m _)); cbn [fst snd _model_cache]; eauto.
  - intros m Hc r. subst r.
    assert (Hrun : forall MP d s st0,
               _model_cache st0 = Some m ->
               predict_quote_total MP d s product_list st0
               = match map features product_list with
                 | [] => (inr pos_zero, st0)
                 | rows =>
                     (match in_library (predict m rows) with
                      | inl e => inl e
                      | inr preds => inr (py_round2 (clamped_total preds))
                      end,
                      {| _model_cache := Some m;
                         files := files st0;
                         predict_calls := S (predict_calls st0) |})
                 end).
    { intros MP d s st0 H0.
      unfold predict_quote_total, cached_model, bind, get, ret,
        call_predict. cbn [fst snd]. rewrite H0.
      destruct (map features product_list) as [|x rows]; [reflexivity|].
      destruct (in_library (predict m (x :: rows))); cbn [fst snd];
        rewrite ?H0; reflexivity. }
    rewrite (Hrun MODEL_PATH db sk st Hc).
    split; [|split].
    + destruct (map features product_list); cbn [snd _model_cache];
        [exact Hc|reflexivity].
    + destruct (map features product_list); reflexivity.
    + intros MP' db' sk' st' Hc'. rewrite (Hrun MP' db' sk' st' Hc').
      destruct (map features product_list); reflexivity.
Qed.

Lemma predict_quote_total_uses_cache_witness :
  fst (predict_quote_total (Some "/srv/model.pkl") seeded_database toy_sklearn
         [window; window]
         {| _model_cache := Some toy_model;
            files := {[ "/srv/model.pkl" := Garbage ]};
            predict_calls := 7 |})
  = fst (predict_quote_total None empty_database toy_sklearn
           [window; window] warm_process).
Proof.
  destruct (predict_quote_total_uses_cache None empty_database toy_sklearn
              [window; window] warm_process) as [_ H].
  destruct (H toy_model eq_refl) as (_ & _ & Hsame).
  apply Hsame. reflexivity.
Defined.

End PricePredictorBehaviour.

(* ===================================================================== *)
(** * customer_segmentation.py: further properties *)
(* ===================================================================== *)

Module CustomerSegmentationBehaviour.
Import PyFloat PyFloatFacts CustomerSegmentation SegmentationSpec SegmentationViews SegmentationScenarios CustomerSegmentationFacts.
Local Open Scope Z_scope.

(** ** The feature frame *)

(** Keys of one kind sort without an error. *)
Lemma sorted_quotations_same_kind now qs b :
  Forall (fun q => tzaware (sort_key now q) = b) qs ->
  sorted_quotations now qs
  = inr (sort_by
           (fun y x => micros (sort_key now x) <? micros (sort_key now y))
           qs).
Proof.
  intros H. unfold sorted_quotations.
  assert (Hex : existsb tzaware (map (sort_key now) qs)
                && existsb (fun t => negb (tzaware t)) (map (sort_key now) qs)
                = false).
  { destruct b.
    - rewrite andb_false_iff. right.
      induction H as [|q qs Hq _ IH]; simpl; [reflexivity|].
      rewrite Hq, IH. reflexivity.
    - rewrite andb_false_iff. left.
      induction H as [|q qs Hq _ IH]; simpl; [reflexivity|].
      rewrite Hq, IH. reflexivity. }
  rewrite <- andb_assoc, Hex, andb_false_r. reflexivity.
Qed.

(** Keys of two kinds do not. *)
Lemma sorted_quotations_mixed now qs q1 q2 :
  q1 ∈ qs -> q2 ∈ qs ->
  tzaware (sort_key now q1) = true -> tzaware (sort_key now q2) = false ->
  sorted_quotations now qs
  = inl (Exn by_library "TypeError"
           "can't compare offset-naive and offset-aware datetimes").
Proof.
  intros H1 H2 Ha Hn. unfold sorted_quotations.
  assert (Hlen : (2 <=? length qs)%nat = true).
  { apply Nat.leb_le. destruct qs as [|a [|b qs]]; simpl; try lia.
    - inversion H1.
    - apply list_elem_of_singleton in H1, H2. subst. congruence. }
  assert (He1 : existsb tzaware (map (sort_key now) qs) = true).
  { apply existsb_exists. exists (sort_key now q1). split; [|exact Ha].
    apply in_map, list_elem_of_In, H1. }
  assert (He2 : existsb (fun t => negb (tzaware t)) (map (sort_key now) qs)
                = true).
  { apply existsb_exists. exists (sort_key now q2).
    split; [apply in_map, list_elem_of_In, H2|]. rewrite Hn. reflexivity. }
  rewrite Hlen, He1, He2. reflexivity.
Qed.

(** The only error of the feature frame is the one of the sort. *)
Lemma feature_row_of_error now c e :
  feature_row_of now c = inl e ->
  e = Exn by_library "TypeError"
        "can't compare offset-naive and offset-aware datetimes".
Proof.
  unfold feature_row_of, sorted_quotations.
  destruct (_ && _ && _); simpl; intros H; inversion H; reflexivity.
Qed.

Lemma feature_rows_error now customers e :
  feature_rows now customers = inl e ->
  e = Exn by_library "TypeError"
        "can't compare offset-naive and offset-aware datetimes".
Proof.
  induction customers as [|c rest IH]; simpl; [discriminate|].
  destruct (feature_row_of now c) as [e'|r] eqn:E; simpl.
  - intros H; inversion H; subst. eapply feature_row_of_error, E.
  - destruct (feature_rows now rest) as [e'|rs]; simpl.
    + intros H; inversion H; subst. apply IH. reflexivity.
    + discriminate.
Qed.

Lemma feature_rows_raise now customers c e :
  c ∈ customers -> feature_row_of now c = inl e ->
  feature_rows now customers
  = inl (Exn by_library "TypeError"
           "can't compare offset-naive and offset-aware datetimes").
Proof.
  intros Hc He.
  destruct (feature_rows now customers) as [e'|rs] eqn:E.
  - f_equal. eapply feature_rows_error, E.
  - exfalso. revert rs E.
    induction Hc as [c rest|c c' rest Hc IH]; simpl; intros rs.
    + rewrite He. discriminate.
    + destruct (feature_row_of now c') as [?|r]; simpl; [discriminate|].
      destruct (feature_rows now rest) as [?|rs'] eqn:E'; simpl;
        [discriminate|].
      intros _. eapply (IH He). reflexivity.
Qed.

(** X9.  When, for every customer, the sort keys of the quotations are all
    of one kind (a missing timestamp counts as the current time),
    [_build_feature_frame] returns a frame with the six feature columns and
    one row per customer, in the order the customers were read, with the
    customer's id, name and number of quotations. *)
Theorem build_feature_frame_rows now customers :
  Forall (fun c =>
            exists b,
              Forall (fun q => tzaware (sort_key now q) = b) (quotations c))
         customers ->
  exists frame,
    _build_feature_frame now customers = inr frame
    /\ columns frame = feature_columns
    /\ map (fun r => (customer_id r, customer_name r, total_quotes r))
           (rows frame)
       = map (fun c => (c_id c, c_name c, Z.of_nat (length (quotations c))))
           customers.
Proof.
  intros H.
  assert (Hrows : exists rs,
             feature_rows now customers = inr rs
             /\ map (fun r => (customer_id r, customer_name r, total_quotes r))
                  rs
                = map (fun c => (c_id c, c_name c,
                                 Z.of_nat (length (quotations c))))
                    customers).
  { induction H as [|c rest [b Hc] _ (rs & Hrs & Hmap)]; simpl.
    - exists []. split; reflexivity.
    - unfold feature_row_of.
      rewrite (sorted_quotations_same_kind now (quotations c) b Hc).
      simpl. rewrite Hrs. simpl. eexists. split; [reflexivity|].
      simpl. rewrite sort_by_length, Hmap. reflexivity. }
  destruct Hrows as (rs & Hrs & Hmap).
  unfold _build_feature_frame. rewrite Hrs. simpl.
  destruct rs as [|r rs]; simpl.
  - eexists. split; [reflexivity|]. split; [reflexivity|exact Hmap].
  - eexists. split; [reflexivity|]. split; [reflexivity|exact Hmap].
Qed.

Lemma build_feature_frame_rows_witness :
  exists frame,
    _build_feature_frame (_utcnow today) [alpha; beta; gamma] = inr frame
    /\ columns frame = feature_columns
    /\ map (fun r => (customer_id r, customer_name r, total_quotes r))
           (rows frame)
       = [(1, "Alpha", 3); (2, "Beta", 1); (3, "Gamma", 0)].
Proof.
  apply (build_feature_frame_rows (_utcnow today) [alpha; beta; gamma]).
  repeat constructor; exists false; repeat constructor.
Defined.

(** X10.  One customer whose quotations have sort keys of both kinds,
    time-zone aware and naive, makes the whole segmentation fail with the
    [TypeError] of the sort, before any clustering.  Since the current time
    is aware, a quotation without a timestamp beside one with a naive
    timestamp is such a customer. *)
Theorem segmentation_rejects_mixed_timestamps
    clock customers fit_predict k c q1 q2 :
  c ∈ customers ->
  q1 ∈ quotations c -> q2 ∈ quotations c ->
  tzaware (sort_key (_utcnow clock) q1) = true ->
  tzaware (sort_key (_utcnow clock) q2) = false ->
  compute_customer_segments clock customers fit_predict k
  = inl (Exn by_library "TypeError"
           "can't compare offset-naive and offset-aware datetimes").
Proof.
  intros Hc H1 H2 Ha Hn.
  unfold compute_customer_segments, _build_feature_frame.
  rewrite (feature_rows_raise (_utcnow clock) customers c
             (Exn by_library "TypeError"
                "can't compare offset-naive and offset-aware datetimes") Hc).
  - reflexivity.
  - unfold feature_row_of.
    rewrite (sorted_quotations_mixed _ _ q1 q2 H1 H2 Ha Hn). reflexivity.
Qed.

Lemma segmentation_rejects_mixed_timestamps_witness :
  compute_customer_segments today [alpha; delta; beta] round_robin 3
  = inl (Exn by_library "TypeError"
           "can't compare offset-naive and offset-aware datetimes").
Proof.
  apply (segmentation_rejects_mixed_timestamps today [alpha; delta; beta]
           round_robin 3 delta (undated 50) (quote 300 7)).
  - repeat constructor.
  - repeat constructor.
  - repeat constructor.
  - reflexivity.
  - reflexivity.
Defined.


(** The first element of a list sorted with [reverse=True] has the largest
    key. *)
Lemma sort_by_desc_head {A} (key : A -> Z) (l : list A) h t :
  sort_by (fun y x => key x <? key y) l = h :: t ->
  h ∈ l /\ forall q, q ∈ l -> key q <= key h.
Proof.
  intros Hs.
  pose proof (sort_by_Permutation (fun y x => key x <? key y) l) as Hp.
  pose proof (sort_by_Sorted (fun y x => key x <? key y)) as Hsorted.
  specialize (Hsorted ltac:(intros x y H; apply Z.ltb_lt in H;
                            apply Z.ltb_ge; lia) l).
  rewrite Hs in Hp, Hsorted.
  apply (Sorted_impl _ (fun a b => key b <= key a)) in Hsorted.
  2:{ intros a b H. apply Z.ltb_ge in H. exact H. }
  apply Sorted_StronglySorted in Hsorted.
  2:{ intros a b c Hab Hbc. lia. }
  apply StronglySorted_inv in Hsorted as [_ Hall].
  split.
  - rewrite <- Hp. left.
  - intros q Hq. rewrite <- Hp in Hq.
    apply elem_of_cons in Hq as [->|Hq]; [lia|].
    rewrite List.Forall_forall in Hall. apply Hall, list_elem_of_In, Hq.
Qed.

(** X11.  For a customer with at least one quotation, all of them dated
    with timestamps of one kind, [days_since_last] is the number of whole
    days (rounded down) from the latest timestamp to the current time. *)
Theorem days_since_latest_quotation now c b :
  quotations c <> [] ->
  (forall q, q ∈ quotations c ->
             exists t, timestamp q = Some t /\ tzaware t = b) ->
  exists r latest,
    feature_row_of now c = inr r
    /\ (exists q, q ∈ quotations c /\ timestamp q = Some latest)
    /\ (forall q t, q ∈ quotations c -> timestamp q = Some t ->
                    micros t <= micros latest)
    /\ days_since_last r
       = (micros now - micros latest) / microseconds_per_day.
Proof.
  intros Hne Hdated. unfold feature_row_of.
  rewrite (sorted_quotations_same_kind now (quotations c) b).
  2:{ apply List.Forall_forall. intros q Hq.
      destruct (Hdated q (proj2 (list_elem_of_In _ _) Hq)) as (t & Ht & Hb).
      unfold sort_key. rewrite Ht. exact Hb. }
  simpl.
  destruct (sort_by _ (quotations c)) as [|h rest] eqn:Hs.
  { exfalso. apply Hne. apply length_zero_iff_nil.
    rewrite <- (sort_by_length
                  (fun y x => micros (sort_key now x) <? micros (sort_key now y))),
      Hs. reflexivity. }
  apply (sort_by_desc_head (fun q => micros (sort_key now q))) in Hs
    as [Hh Hmax].
  destruct (Hdated h Hh) as (latest & Hlatest & _).
  eexists _, latest. split; [reflexivity|]. split; [eauto|]. split.
  - intros q t Hq Ht. specialize (Hmax q Hq). unfold sort_key in Hmax.
    rewrite Ht, Hlatest in Hmax. exact Hmax.
  - simpl. rewrite Hlatest. reflexivity.
Qed.

Lemma days_since_latest_quotation_witness :
  exists r latest,
    feature_row_of (_utcnow today) alpha = inr r
    /\ (exists q, q ∈ quotations alpha /\ timestamp q = Some latest)
    /\ (forall q t, q ∈ quotations alpha -> timestamp q = Some t ->
                    micros t <= micros latest)
    /\ days_since_last r
       = (micros (_utcnow today) - micros latest) / microseconds_per_day.
Proof.
  apply (days_since_latest_quotation (_utcnow today) alpha false).
  - discriminate.
  - intros q Hq. simpl in Hq.
    repeat (apply elem_of_cons in Hq as [->|Hq];
            [eexists; split; reflexivity|]).
    inversion Hq.
Defined.

(** X12.  Seen from an aware current time, a customer who has a quotation
    without a timestamp, all the dated ones being aware and in the past,
    gets [days_since_last = 10000]: the undated quotation sorts first, as
    if it were made now, and its missing timestamp then counts as "very
    inactive". *)
Theorem undated_quotation_counts_as_inactive now c q0 :
  tzaware now = true ->
  q0 ∈ quotations c -> timestamp q0 = None ->
  (forall q t, q ∈ quotations c -> timestamp q = Some t ->
               tzaware t = true /\ micros t < micros now) ->
  exists r, feature_row_of now c = inr r /\ days_since_last r = 10000.
Proof.
  intros Hnow Hq0 Hnone Hpast. unfold feature_row_of.
  rewrite (sorted_quotations_same_kind now (quotations c) true).
  2:{ apply List.Forall_forall. intros q Hq. unfold sort_key.
      destruct (timestamp q) as [t|] eqn:Ht; [|exact Hnow].
      apply (Hpast q t (proj2 (list_elem_of_In _ _) Hq) Ht). }
  simpl.
  destruct (sort_by _ (quotations c)) as [|h rest] eqn:Hs.
  { eexists. split; reflexivity. }
  apply (sort_by_desc_head (fun q => micros (sort_key now q))) in Hs
    as [Hh Hmax].
  eexists. split; [reflexivity|]. simpl.
  destruct (timestamp h) as [t|] eqn:Ht; [|reflexivity].
  exfalso. specialize (Hmax q0 Hq0). unfold sort_key in Hmax.
  rewrite Hnone, Ht in Hmax. destruct (Hpast h t Hh Ht). lia.
Qed.

Lemma undated_quotation_counts_as_inactive_witness :
  exists r,
    feature_row_of (_utcnow today) epsilon = inr r
    /\ days_since_last r = 10000.
Proof.
  apply (undated_quotation_counts_as_inactive (_utcnow today) epsilon
           (undated 50)).
  - reflexivity.
  - repeat constructor.
  - reflexivity.
  - intros q t Hq Ht. simpl in Hq.
    apply elem_of_cons in Hq as [->|Hq].
    + inversion Ht; subst t. split; [reflexivity|]. vm_compute. reflexivity.
    + apply elem_of_cons in Hq as [->|Hq]; [discriminate Ht|inversion Hq].
Defined.


(** ** The labels *)

Lemma digits_inj a b : 0 <= a -> 0 <= b -> digits a = digits b -> a = b.
Proof.
  intros Ha Hb H. unfold digits in H.
  apply (f_equal NilEmpty.uint_of_string) in H.
  rewrite !NilEmpty.usu in H. inversion H as [H'].
  apply (f_equal N.of_uint) in H'.
  rewrite !DecimalN.Unsigned.of_to in H'. lia.
Qed.

Lemma append_inj_r (p a b : string) : p ++ a = p ++ b -> a = b.
Proof.
  induction p as [|c p IH]; simpl; intros H; [exact H|].
  inversion H. auto.
Qed.

(** Different ranks have different labels. *)
Lemma label_at_inj i j : label_at i = label_at j -> i = j.
Proof.
  assert (Hseg : forall n m,
             label_at (3 + n) = label_at (3 + m) -> n = m).
  { intros n m H. unfold label_at in H. cbn [lookup] in H. simpl in H.
    unfold PyStr.of_int in H.
    destruct (Z.ltb_spec (Z.of_nat (3 + n) + 1) 0); [lia|].
    destruct (Z.ltb_spec (Z.of_nat (3 + m) + 1) 0); [lia|].
    injection H as H. apply digits_inj in H; lia. }
  destruct i as [|[|[|i]]], j as [|[|[|j]]]; try reflexivity;
    try (intros H; vm_compute in H; discriminate H);
    try (unfold label_at; simpl; discriminate).
  intros H. f_equal. f_equal. f_equal. apply (Hseg i j H).
Qed.


Lemma ranked_clusters_keys rs :
  map (fun x : cluster_stats * float => agg_cluster x.1) (ranked_clusters rs)
  ≡ₚ group_keys rs.
Proof.
  unfold ranked_clusters. rewrite sort_by_Permutation.
  rewrite <- (map_map fst agg_cluster).
  change (map fst ?l) with (l.*1).
  rewrite fst_zip; [apply reflexive_eq, aggregate_clusters|].
  rewrite scores_score_in, length_map. reflexivity.
Qed.

Lemma ranked_clusters_length rs :
  length (ranked_clusters rs) = length (group_keys rs).
Proof.
  rewrite <- (Permutation_length (ranked_clusters_keys rs)), length_map.
  reflexivity.
Qed.

(** A cluster that occurs has the label of its rank. *)
Lemma cluster_rank rs c :
  c ∈ group_keys rs ->
  exists j a s,
    ranked_clusters rs !! j = Some (a, s) /\ agg_cluster a = c
    /\ label_map rs !! c = Some (label_at j).
Proof.
  intros Hc. rewrite <- ranked_clusters_keys in Hc.
  apply list_elem_of_In, in_map_iff in Hc as ([a s] & Ha & Hin).
  apply list_elem_of_In, list_elem_of_lookup in Hin as [j Hj].
  exists j, a, s. split; [exact Hj|]. split; [exact Ha|].
  rewrite <- Ha. apply (label_map_lookup rs j a s). exact Hj.
Qed.

Lemma ranked_clusters_rank_unique rs j1 j2 a1 s1 a2 s2 :
  ranked_clusters rs !! j1 = Some (a1, s1) ->
  ranked_clusters rs !! j2 = Some (a2, s2) ->
  agg_cluster a1 = agg_cluster a2 -> j1 = j2.
Proof.
  intros H1 H2 Heq.
  apply (NoDup_lookup
           (map (fun x : cluster_stats * float => agg_cluster x.1)
              (ranked_clusters rs)) j1 j2 (agg_cluster a1)).
  - rewrite ranked_clusters_keys. apply group_keys_NoDup.
  - change (map ?f ?l) with (f <$> l). rewrite list_lookup_fmap, H1.
    reflexivity.
  - change (map ?f ?l) with (f <$> l). rewrite list_lookup_fmap, H2.
    simpl. rewrite Heq. reflexivity.
Qed.

Lemma label_clusters_lookup rs i r c :
  rs !! i = Some r -> cluster r = Some c ->
  _label_clusters rs !! i = Some (label_map rs !! c).
Proof.
  intros Hi Hc. unfold _label_clusters.
  change (map ?f ?l) with (f <$> l). rewrite list_lookup_fmap, Hi. simpl.
  rewrite Hc. reflexivity.
Qed.

(** X13.  When every row has a cluster, [_label_clusters] gives every row
    a label, and two rows get the same label exactly when they are in the
    same cluster: the labels name the clusters one to one. *)
Theorem label_clusters_partition rs i j ri rj :
  Forall (fun r => is_Some (cluster r)) rs ->
  rs !! i = Some ri -> rs !! j = Some rj ->
  exists li lj,
    _label_clusters rs !! i = Some (Some li)
    /\ _label_clusters rs !! j = Some (Some lj)
    /\ (li = lj <-> cluster ri = cluster rj).
Proof.
  intros Hall Hi Hj.
  rewrite List.Forall_forall in Hall.
  destruct (Hall ri) as [ci Hci];
    [eapply list_elem_of_In, list_elem_of_lookup_2, Hi|].
  destruct (Hall rj) as [cj Hcj];
    [eapply list_elem_of_In, list_elem_of_lookup_2, Hj|].
  destruct (cluster_rank rs ci) as (ni & ai & si & Hni & Hai & Hli).
  { apply group_keys_elem_of. exists ri.
    split; [eapply list_elem_of_lookup_2, Hi|exact Hci]. }
  destruct (cluster_rank rs cj) as (nj & aj & sj & Hnj & Haj & Hlj).
  { apply group_keys_elem_of. exists rj.
    split; [eapply list_elem_of_lookup_2, Hj|exact Hcj]. }
  exists (label_at ni), (label_at nj).
  rewrite (label_clusters_lookup rs i ri ci Hi Hci), Hli.
  rewrite (label_clusters_lookup rs j rj cj Hj Hcj), Hlj.
  split; [reflexivity|]. split; [reflexivity|].
  rewrite Hci, Hcj. split.
  - intros H. apply label_at_inj in H. subst nj.
    rewrite Hni in Hnj. inversion Hnj; subst. reflexivity.
  - intros H. inversion H; subst cj.
    rewrite (ranked_clusters_rank_unique rs ni nj ai si aj sj Hni Hnj);
      [reflexivity|congruence].
Qed.

Lemma label_clusters_partition_witness :
  exists li lj,
    _label_clusters clustered_trio !! 0%nat = Some (Some li)
    /\ _label_clusters clustered_trio !! 2%nat = Some (Some lj)
    /\ li = lj.
Proof.
  edestruct (label_clusters_partition clustered_trio 0 2)
    as (li & lj & Hi & Hj & Hiff).
  - vm_compute. repeat constructor; eexists; reflexivity.
  - vm_compute. reflexivity.
  - vm_compute. reflexivity.
  - exists li, lj. split; [exact Hi|]. split; [exact Hj|].
    apply Hiff. reflexivity.
Defined.

(** Every entry of [_label_clusters] is the label of a rank. *)
Lemma label_clusters_labels_aux rs :
  Forall (fun r => is_Some (cluster r)) rs ->
  forall l,
    l ∈ _label_clusters rs ->
    exists j, (j < length (group_keys rs))%nat /\ l = Some (label_at j).
Proof.
  intros Hall l. rewrite List.Forall_forall in Hall.
  intros Hl. apply list_elem_of_lookup in Hl as [i Hi].
  destruct (rs !! i) as [r|] eqn:Hr.
  2:{ unfold _label_clusters in Hi. change (map ?f ?l) with (f <$> l) in Hi.
      rewrite list_lookup_fmap, Hr in Hi. discriminate. }
  destruct (Hall r) as [c Hc];
    [eapply list_elem_of_In, list_elem_of_lookup_2, Hr|].
  rewrite (label_clusters_lookup rs i r c Hr Hc) in Hi.
  destruct (cluster_rank rs c) as (n & a & s & Hn & Ha & Hl).
  { apply group_keys_elem_of. exists r.
    split; [eapply list_elem_of_lookup_2, Hr|exact Hc]. }
  exists n. split.
  + rewrite <- ranked_clusters_length. eapply lookup_lt_Some, Hn.
  + rewrite Hl in Hi. inversion Hi. reflexivity.
Qed.

(** X14.  With [n] distinct clusters among the rows, the labels in use are
    exactly the first [n] of "High-Value Frequent", "Occasional",
    "Dormant/Low", "Segment 4", "Segment 5", ...: each of them is given to
    some row and no other label to any.  So whenever there are rows, one of
    them is labelled "High-Value Frequent", whatever the customers look
    like. *)
Theorem label_clusters_labels rs :
  Forall (fun r => is_Some (cluster r)) rs ->
  (forall l,
     l ∈ _label_clusters rs
     <-> exists j, (j < length (group_keys rs))%nat /\ l = Some (label_at j))
  /\ (rs <> [] -> Some "High-Value Frequent" ∈ _label_clusters rs).
Proof.
  intros Hall.
  assert (Hiff : forall l,
             l ∈ _label_clusters rs
             <-> exists j, (j < length (group_keys rs))%nat
                           /\ l = Some (label_at j)).
  2:{ split; [exact Hiff|]. intros Hne. apply Hiff. exists 0%nat.
      split; [|reflexivity].
      destruct rs as [|r rs']; [congruence|].
      apply Forall_inv in Hall as [c Hc].
      assert (Hin : c ∈ group_keys (r :: rs'))
        by (apply group_keys_elem_of; exists r; split; [left|exact Hc]).
      destruct (group_keys (r :: rs')); [inversion Hin|simpl; lia]. }
  intros l. split; [apply label_clusters_labels_aux, Hall|].
  rewrite List.Forall_forall in Hall.
  - intros (j & Hj & ->).
    rewrite <- ranked_clusters_length in Hj.
    apply lookup_lt_is_Some in Hj as [[a s] Hjs].
    assert (Hc : agg_cluster a ∈ group_keys rs).
    { rewrite <- ranked_clusters_keys.
      apply list_elem_of_In, in_map_iff. exists (a, s).
      split; [reflexivity|].
      eapply list_elem_of_In, list_elem_of_lookup_2, Hjs. }
    apply group_keys_elem_of in Hc as (r & Hr & Hc).
    apply list_elem_of_lookup in Hr as [i Hi].
    apply list_elem_of_lookup. exists i.
    rewrite (label_clusters_lookup rs i r _ Hi Hc).
    rewrite (label_map_lookup rs j a s Hjs). reflexivity.
Qed.


Lemma label_clusters_labels_witness :
  Some "High-Value Frequent" ∈ _label_clusters clustered_trio
  /\ Some "Dormant/Low" ∉ _label_clusters clustered_trio.
Proof.
  pose proof (label_clusters_labels clustered_trio
                ltac:(vm_compute; repeat constructor; eexists; reflexivity))
    as [H _].
  split.
  - apply H. exists 0%nat. split; [vm_compute; lia|reflexivity].
  - intros Hin. apply H in Hin as (j & Hj & Hl).
    vm_compute in Hj.
    destruct j as [|[|j]]; [discriminate Hl|discriminate Hl|lia].
Defined.

(** ** The result frame *)

Lemma set_cluster_features rs clusters rs' :
  set_cluster rs clusters = inr rs' ->
  map features_of rs' = map features_of rs.
Proof.
  unfold set_cluster. destruct (bool_decide _) eqn:E; [|discriminate].
  apply bool_decide_eq_true in E. intros H. inversion H; subst. clear H.
  revert clusters E. induction rs as [|r rs IH]; intros [|c cl] E;
    simpl in *; try discriminate; [reflexivity|].
  f_equal. apply IH. lia.
Qed.

Lemma set_segment_features rs labels :
  length labels = length rs ->
  map features_of (set_segment rs labels) = map features_of rs.
Proof.
  unfold set_segment. revert labels.
  induction rs as [|r rs IH]; intros [|l labels] E;
    simpl in *; try discriminate; [reflexivity|].
  f_equal. apply IH. lia.
Qed.

Lemma set_segment_labels rs labels :
  length labels = length rs ->
  map segment (set_segment rs labels) = labels.
Proof.
  unfold set_segment. revert labels.
  induction rs as [|r rs IH]; intros [|l labels] E;
    simpl in *; try discriminate; [reflexivity|].
  f_equal. apply IH. lia.
Qed.

(** The rows of a result: none, for an empty repository; otherwise the
    clustered rows with their labels, sorted for presentation. *)
Lemma compute_result_rows clock customers fit_predict k df :
  compute_customer_segments clock customers fit_predict k = inr df ->
  exists frame,
    _build_feature_frame (_utcnow clock) customers = inr frame
    /\ ((rows frame = [] /\ df = frame)
        \/ exists clusters rs,
             set_cluster (rows frame) clusters = inr rs
             /\ rows df
                = sort_by presentation_before
                    (set_segment rs (_label_clusters rs))).
Proof.
  unfold compute_customer_segments. intros H.
  destruct (_build_feature_frame _ customers) as [e|frame] eqn:Ef;
    simpl in H; [discriminate|].
  exists frame. split; [reflexivity|].
  pose proof (build_feature_frame_shape _ _ _ Ef) as [Hcols _].
  destruct (empty frame) eqn:Ee.
  { left. apply (empty_feature_frame _ Hcols) in Ee. inversion H; subst.
    split; [exact Ee|reflexivity]. }
  right.
  destruct (in_library _) as [e|clusters]; simpl in H; [discriminate|].
  destruct (set_cluster (rows frame) clusters) as [e|rs] eqn:Ec; simpl in H;
    [discriminate|].
  inversion H; subst; simpl. eauto.
Qed.

(** X15.  A result of [compute_customer_segments] has exactly one row per
    customer: its rows carry, in some order, the six feature values that
    [_build_feature_frame] computed, unchanged by clustering and
    labelling, and every row has a segment label. *)
Theorem segments_cover_customers clock customers fit_predict k df :
  compute_customer_segments clock customers fit_predict k = inr df ->
  exists frame,
    _build_feature_frame (_utcnow clock) customers = inr frame
    /\ map features_of (rows df) ≡ₚ map features_of (rows frame)
    /\ map customer_id (rows df) ≡ₚ map c_id customers
    /\ Forall (fun r => is_Some (segment r)) (rows df).
Proof.
  intros H.
  destruct (compute_result_rows _ _ _ _ _ H) as (frame & Hf & Hrows).
  exists frame. split; [exact Hf|].
  assert (Hids : map customer_id (rows frame) = map c_id customers).
  { unfold _build_feature_frame in Hf.
    destruct (feature_rows _ customers) as [e|rs0] eqn:E; simpl in Hf;
      [discriminate|].
    apply feature_rows_ids in E.
    inversion Hf; subst. destruct rs0; simpl; exact E. }
  assert (Hproj : forall l : list row,
             map customer_id l
             = map (fun t : Z * string * Z * float * float * Z =>
                      t.1.1.1.1.1) (map features_of l)).
  { intros l. rewrite map_map. reflexivity. }
  destruct Hrows as [[Hnil ->]|(clusters & rs & Hc & Hrows)].
  - split; [reflexivity|]. split; [rewrite <- Hids; reflexivity|].
    rewrite Hnil. constructor.
  - assert (Hfeat : map features_of (rows df) ≡ₚ map features_of (rows frame)).
    { rewrite Hrows, sort_by_Permutation.
      rewrite set_segment_features
        by (unfold _label_clusters; apply length_map).
      rewrite (set_cluster_features _ _ _ Hc). reflexivity. }
    split; [exact Hfeat|]. split.
    + rewrite <- Hids, !Hproj, Hfeat. reflexivity.
    + rewrite Hrows. 
      apply set_cluster_rows in Hc as [_ Hsome].
      assert (Hlab : Forall (fun l : option string => is_Some l)
                       (_label_clusters rs)).
      { apply List.Forall_forall. intros l Hl.
        apply list_elem_of_In, (label_clusters_labels_aux rs Hsome) in Hl
          as (j & _ & ->). eauto. }
      rewrite <- (set_segment_labels rs (_label_clusters rs)) in Hlab
        by (unfold _label_clusters; apply length_map).
      rewrite List.Forall_map in Hlab.
      rewrite sort_by_Permutation. exact Hlab.
Qed.

Lemma segments_cover_customers_witness :
  exists df,
    compute_customer_segments today [alpha; beta; gamma] round_robin 3
    = inr df
    /\ map customer_id (rows df) ≡ₚ [1; 2; 3]
    /\ Forall (fun r => is_Some (segment r)) (rows df).
Proof.
  eexists. split; [vm_compute; reflexivity|].
  edestruct (segments_cover_customers today [alpha; beta; gamma]
               round_robin 3) as (frame & _ & _ & Hids & Hseg).
  - vm_compute. reflexivity.
  - split; [exact Hids|exact Hseg].
Defined.

End CustomerSegmentationBehaviour.

(* ===================================================================== *)
(** * app.py: properties *)
(* ===================================================================== *)

Module AppFacts.
Import PyFloat App AppScenarios SummaryScenarios PriceScenarios.
Local Open Scope Z_scope.

(** ** The decorators *)

(** X16.  A view behind [@login_required] and [@role_required('manager')]
    runs exactly for a session that has a [user_id] and the role
    ['manager'].  Every other request is answered by a redirect without
    the view being run: to the login page, with nothing changed, when
    there is no [user_id]; to the index page, with one warning flashed and
    nothing else changed, when the role is another one. *)
Theorem manager_only_view (f : handler) w :
  let guarded := login_required (role_required ["manager"] f) in
  (logged_in w = true /\ session w !! "role" = Some (SStr "manager") ->
   guarded w = f w)
  /\ (logged_in w = false -> guarded w = (ok (Redirect "login"), w))
  /\ (logged_in w = true -> session w !! "role" <> Some (SStr "manager") ->
      exists w',
        guarded w = (ok (Redirect "index"), w')
        /\ flashes w'
           = app (flashes w)
               [("warning",
                 "You don't have permission to access that resource.")]
        /\ session w' = session w /\ quotation w' = quotation w
        /\ predictor w' = predictor w /\ summarizer w' = summarizer w).
Proof.
  intros guarded. subst guarded. unfold login_required, role_required.
  split; [|split].
  - intros [Hin Hrole]. rewrite Hin. simpl. unfold role_in. rewrite Hrole.
    rewrite bool_decide_true by (apply list_elem_of_singleton; reflexivity).
    reflexivity.
  - intros Hout. rewrite Hout. reflexivity.
  - intros Hin Hrole. rewrite Hin. simpl.
    assert (Hno : role_in ["manager"] w = false).
    { unfold role_in. destruct (session w !! "role") as [[z|r]|];
        try reflexivity.
      apply bool_decide_eq_false. intros Hr.
      apply list_elem_of_singleton in Hr. subst r. congruence. }
    rewrite Hno. simpl. eexists. split; [reflexivity|]. repeat split.
Qed.

Lemma manager_only_view_witness :
  login_required (role_required ["manager"] some_view) (serving 7 "manager")
  = some_view (serving 7 "manager")
  /\ login_required (role_required ["manager"] some_view) anonymous
     = (ok (Redirect "login"), anonymous)
  /\ fst (login_required (role_required ["manager"] some_view)
            (serving 7 "sales"))
     = ok (Redirect "index").
Proof.
  destruct (manager_only_view some_view (serving 7 "manager"))
    as (Hrun & _ & _).
  destruct (manager_only_view some_view anonymous) as (_ & Hanon & _).
  destruct (manager_only_view some_view (serving 7 "sales"))
    as (_ & _ & Hsales).
  split; [apply Hrun; split; reflexivity|].
  split; [apply Hanon; reflexivity|].
  destruct Hsales as (w' & -> & _); [reflexivity|discriminate|reflexivity].
Defined.

(** X17.  How the two decorators compose: [role_required()] with no role
    is [login_required], and [login_required] in front of [role_required]
    adds nothing. *)
Theorem decorators_compose (roles : list string) (f : handler) w :
  role_required [] f w = login_required f w
  /\ login_required (role_required roles f) w = role_required roles f w.
Proof.
  unfold login_required, role_required. split.
  - destruct (logged_in w); reflexivity.
  - destruct (logged_in w); reflexivity.
Qed.

(** X25.  [login] writes to the session only on a POST whose e-mail,
    stripped and lower-cased, is the one of a user and whose password
    passes the hash check.  Then the session holds the user's id, role and
    name, a view behind [login_required] runs, and a view behind
    [role_required('manager')] runs exactly when the user's role is
    ['manager'].  Every other request leaves the session as it was and
    shows the login page again. *)
Theorem login_establishes_session user check method form (f : handler) w :
  let email :=
    PyStr.lower (PyStr.strip (default EmptyString (form !! "email"))) in
  let password := default EmptyString (form !! "password") in
  let r := login user check method form w in
  match find (fun u => String.eqb (u_email u) email) user with
  | Some u =>
      if String.eqb method "POST" && check (u_password_hash u) password
      then
        fst r = inr (Redirect "index")
        /\ session (snd r) !! "user_id" = Some (SInt (u_id u))
        /\ session (snd r) !! "role" = Some (SStr (u_role u))
        /\ session (snd r) !! "username" = Some (SStr (u_username u))
        /\ login_required f (snd r) = f (snd r)
        /\ (u_role u = "manager" ->
            role_required ["manager"] f (snd r) = f (snd r))
        /\ (u_role u <> "manager" ->
            fst (role_required ["manager"] f (snd r))
            = inr (Redirect "index"))
      else fst r = inr (Render "login.html") /\ session (snd r) = session w
  | None => fst r = inr (Render "login.html") /\ session (snd r) = session w
  end.
Proof.
  intros email password r. subst r. unfold login. fold email. fold password.
  destruct (String.eqb method "POST"); simpl.
  2:{ destruct (find _ user); split; reflexivity. }
  destruct (find _ user) as [u|]; [|split; reflexivity].
  destruct (check (u_password_hash u) password); [|split; reflexivity].
  simpl.
  assert (Hin : logged_in
                  (flash "Logged in successfully." "success"
                     (set_session
                        (<["username":=SStr (u_username u)]>
                           (<["role":=SStr (u_role u)]>
                              (<["user_id":=SInt (u_id u)]> (session w)))) w))
                = true).
  { unfold logged_in. simpl. apply bool_decide_eq_true.
    rewrite lookup_insert_ne by discriminate.
    rewrite lookup_insert_ne by discriminate.
    rewrite lookup_insert_eq. eauto. }
  assert (Hrole : forall m : gmap string sval,
             <["username":=SStr (u_username u)]>
               (<["role":=SStr (u_role u)]> m) !! "role"
             = Some (SStr (u_role u))).
  { intros m. rewrite lookup_insert_ne by discriminate.
    apply lookup_insert_eq. }
  split; [reflexivity|]. split.
  { rewrite lookup_insert_ne by discriminate.
    rewrite lookup_insert_ne by discriminate. apply lookup_insert_eq. }
  split; [apply Hrole|]. split; [apply lookup_insert_eq|].
  split; [unfold login_required; rewrite Hin; reflexivity|].
  unfold role_required. rewrite Hin. simpl. unfold role_in. simpl.
  rewrite Hrole. split.
  - intros ->. reflexivity.
  - intros Hne. rewrite bool_decide_false; [reflexivity|].
    intros Hr. apply list_elem_of_singleton in Hr. contradiction.
Qed.

(** X26.  After [logout] the session is empty and the only flashed
    message is "Logged out." (messages flashed before and not yet shown
    are lost with the session); every view behind either decorator then
    redirects to the login page without running. *)
Theorem logout_closes_session (roles : list string) (f : handler) w :
  let w' := snd (logout w) in
  fst (logout w) = inr (Redirect "login")
  /\ session w' = ∅
  /\ flashes w' = [("info", "Logged out.")]
  /\ login_required f w' = (inr (Redirect "login"), w')
  /\ role_required roles f w' = (inr (Redirect "login"), w').
Proof. repeat split. Qed.

(** ** api_predict_price *)

Section Endpoints.
Variable parse_int : string -> result Z.
Variable parse_float : string -> result float.
Variable cfg : SummaryGenerator.config.
Variable transformers : SummaryGenerator.hub.
Variable MODEL_PATH : option string.
Variable db : PricePredictor.database.
Variable sk : PricePredictor.sklearn.
Variable customer : gmap Z string.
Variable commit : result unit.


(** X19.  An element of [items] whose [product_id] is an integer that no
    row of the product table has is skipped: the payload is the one of the
    request without that element. *)
Theorem build_payload_skips_unknown before after it pid id :
  getitem it "product_id" = inr pid ->
  int_of parse_int pid = inr id ->
  Product_query_get db id = inr None ->
  build_payload parse_int parse_float db (before ++ it :: after)
  = build_payload parse_int parse_float db (before ++ after).
Proof.
  intros Hget Hint Hnone.
  induction before as [|b before IH]; simpl.
  - unfold payload_item. rewrite Hget. simpl. rewrite Hint. simpl.
    rewrite Hnone. simpl.
    destruct (build_payload _ _ _ after); reflexivity.
  - rewrite IH. reflexivity.
Qed.



(** ** api_generate_summary *)




Lemma summary_items_dangling its it :
  it ∈ its ->
  (forall p, p ∈ PricePredictor.product db ->
             PricePredictor.p_id p <> PricePredictor.qi_product_id it) ->
  summary_items db its
  = inl (Exn by_library "AttributeError"
           "'NoneType' object has no attribute 'name'").
Proof.
  intros Hit Hmissing.
  induction Hit as [it rest|it it' rest Hit IH]; simpl.
  - unfold summary_item.
    destruct (find _ (PricePredictor.product db)) as [p|] eqn:Hf;
      [|reflexivity].
    apply find_some in Hf as [Hp Hid]. apply Z.eqb_eq in Hid.
    exfalso. apply (Hmissing p); [apply list_elem_of_In, Hp|exact Hid].
  - destruct (summary_item db it') as [e|x] eqn:Hx; simpl.
    + unfold summary_item in Hx.
      destruct (find _ (PricePredictor.product db)); inversion Hx.
      reflexivity.
    + rewrite (IH Hmissing). reflexivity.
Qed.

(** X24.  A quotation with an item whose product row is missing cannot be
    summarized through the endpoint: for a session that may act on it the
    view raises the [AttributeError] of [it.product.name], outside its
    [try] block, instead of answering with JSON, and nothing is changed. *)
Theorem api_generate_summary_dangling_product request_json w qid q :
  logged_in w = true ->
  rbind (body_or_empty request_json)
    (fun data => rbind (dict_get data "quotation_id" JNull)
                   (int_of parse_int)) = inr qid ->
  get_or_404 (quotation w) qid = inr q ->
  not_permitted (q_user_id q) w = false ->
  (exists it, it ∈ items_of db qid
              /\ forall p, p ∈ PricePredictor.product db ->
                           PricePredictor.p_id p
                           <> PricePredictor.qi_product_id it) ->
  api_generate_summary parse_int cfg transformers db customer commit
    request_json w
  = (inl (Exn by_library "AttributeError"
            "'NoneType' object has no attribute 'name'"), w).
Proof.
  intros Hin Hqid Hq Hperm (it & Hit & Hmissing).
  unfold api_generate_summary, login_required, api_generate_summary_view.
  rewrite Hin. simpl. rewrite Hqid, Hq, Hperm.
  pose proof (summary_items_dangling _ it Hit Hmissing) as Hraise.
  rewrite Hraise. reflexivity.
Qed.

End Endpoints.



Lemma api_generate_summary_dangling_product_witness :
  api_generate_summary no_parse SummaryGenerator.default_config dead_hub
    seeded_database customers_table (ok tt) (summary_request 1)
    (serving 3 "manager")
  = (inl (Exn by_library "AttributeError"
            "'NoneType' object has no attribute 'name'"),
     serving 3 "manager").
Proof.
  apply (api_generate_summary_dangling_product no_parse
           SummaryGenerator.default_config dead_hub seeded_database
           customers_table (ok tt) (summary_request 1) (serving 3 "manager")
           1 quotation_1); try reflexivity.
  exists dangling_line. split; [repeat constructor|].
  intros p Hp. apply list_elem_of_singleton in Hp. subst p. discriminate.
Defined.

Lemma build_payload_skips_unknown_witness :
  build_payload no_parse no_parse seeded_database [line 1; line 99; line 1]
  = build_payload no_parse no_parse seeded_database [line 1; line 1].
Proof.
  apply (build_payload_skips_unknown no_parse no_parse seeded_database
           [line 1] [line 1] (line 99) (JInt 99) 99); reflexivity.
Defined.


Lemma login_establishes_session_witness :
  let r := login [mia; sam] toy_check "POST"
             {[ "email" := "  Sales@Reliant.com "; "password" := "sales123" ]}
             anonymous in
  fst r = inr (Redirect "index")
  /\ session (snd r) !! "role" = Some (SStr "sales")
  /\ login_required some_view (snd r) = some_view (snd r)
  /\ fst (role_required ["manager"] some_view (snd r))
     = inr (Redirect "index").
Proof.
  pose proof (login_establishes_session [mia; sam] toy_check "POST"
                {[ "email" := "  Sales@Reliant.com ";
                   "password" := "sales123" ]} some_view anonymous) as H.
  vm_compute in H. vm_compute. tauto.
Defined.

End AppFacts.

Module QuotationFormFacts.
Import PyFloat App QuotationForm CustomerSegmentationBehaviour.
Local Open Scope Z_scope.

Lemma string_length_app (a b : string) :
  String.length (a ++ b) = (String.length a + String.length b)%nat.
Proof. induction a as [|c a IH]; simpl; [reflexivity|]. rewrite IH. reflexivity. Qed.

Lemma append_inj_l (a b s : string) : a ++ s = b ++ s -> a = b.
Proof.
  revert b. induction a as [|c a IH]; intros [|d b] H; simpl in H.
  - reflexivity.
  - exfalso. apply (f_equal String.length) in H.
    rewrite !string_length_app in H. simpl in H. lia.
  - exfalso. apply (f_equal String.length) in H.
    rewrite !string_length_app in H. simpl in H. lia.
  - change (String c (a ++ s) = String d (b ++ s)) in H.
    inversion H. f_equal. apply IH. assumption.
Qed.

(** Different rows have different keys. *)
Lemma field_inj i j name : field i name = field j name -> i = j.
Proof.
  unfold field. intros H. apply append_inj_r in H.
  apply append_inj_l in H. unfold PyStr.of_int in H.
  destruct (Z.ltb_spec (Z.of_nat i) 0); [lia|].
  destruct (Z.ltb_spec (Z.of_nat j) 0); [lia|].
  apply digits_inj in H; lia.
Qed.

Section Loop.
Variable parse_int : string -> result Z.
Variable parse_float : string -> result float.
Variable db : PricePredictor.database.

(** More rounds do not change a result. *)
Lemma collect_items_more_fuel form fuel : forall idx r fuel',
  collect_items parse_int parse_float db form fuel idx = Some r ->
  (fuel <= fuel')%nat ->
  collect_items parse_int parse_float db form fuel' idx = Some r.
Proof.
  induction fuel as [|fuel IH]; intros idx r fuel' H Hle; [discriminate|].
  destruct fuel' as [|fuel']; [lia|]. simpl in *.
  destruct (form !! field idx "product_id") as [pid|]; [|exact H].
  destruct (String.eqb (PyStr.strip pid) EmptyString).
  - apply IH; [exact H|lia].
  - destruct (form_row _ _ _ _ _ _) as [e|it]; [exact H|].
    destruct (collect_items _ _ _ form fuel (S idx)) as [r'|] eqn:E;
      [|discriminate].
    rewrite (IH (S idx) r' fuel' E) by lia. exact H.
Qed.

(** The loop ends: every round uses up a field of the form. *)
Lemma collect_items_ends form fuel : forall (m : gmap string string) idx,
  (size m < fuel)%nat ->
  (forall i, (idx <= i)%nat ->
             is_Some (form !! field i "product_id") ->
             is_Some (m !! field i "product_id")) ->
  is_Some (collect_items parse_int parse_float db form fuel idx).
Proof.
  induction fuel as [|fuel IH]; intros m idx Hsize Hm; [lia|]. simpl.
  destruct (form !! field idx "product_id") as [pid|] eqn:Hpid; [|eauto].
  assert (Hin : is_Some (m !! field idx "product_id"))
    by (apply Hm; [lia|eauto]).
  assert (Hrest : is_Some (collect_items parse_int parse_float db form fuel
                             (S idx))).
  { apply (IH (delete (field idx "product_id") m)).
    - pose proof (map_size_delete_Some (field idx "product_id") m Hin)
        as Hd.
      destruct Hin as [x Hx].
      assert (size m <> 0%nat)
        by (intros H0; apply map_size_empty_iff in H0; subst m;
            rewrite lookup_empty in Hx; discriminate).
      lia.
    - intros i Hi Hsome. rewrite lookup_delete_ne; [apply Hm; [lia|exact Hsome]|].
      intros Heq. apply field_inj in Heq. lia. }
  destruct (String.eqb (PyStr.strip pid) EmptyString); [exact Hrest|].
  destruct (form_row _ _ _ _ _ _); [eauto|].
  destruct Hrest as [r ->]. eauto.
Qed.

(** The rows below [n] decide the result when row [n] has no product
    field. *)
Lemma collect_items_agree form form' n fuel : forall idx,
  form !! field n "product_id" = None ->
  form' !! field n "product_id" = None ->
  (forall i name, (i < n)%nat -> form !! field i name = form' !! field i name) ->
  (idx <= n)%nat ->
  collect_items parse_int parse_float db form fuel idx
  = collect_items parse_int parse_float db form' fuel idx.
Proof.
  intros idx Hn Hn' Hsame. revert idx.
  induction fuel as [|fuel IH]; intros idx Hle; [reflexivity|]. simpl.
  destruct (Nat.eq_dec idx n) as [->|Hne].
  - rewrite Hn, Hn'. reflexivity.
  - assert (Hlt : (idx < n)%nat) by lia.
    rewrite <- (Hsame idx "product_id" Hlt).
    destruct (form !! field idx "product_id") as [pid|]; [|reflexivity].
    rewrite (IH (S idx)) by lia.
    destruct (String.eqb (PyStr.strip pid) EmptyString); [reflexivity|].
    unfold form_row, form_int, form_float.
    rewrite <- !(Hsame idx _ Hlt). reflexivity.
Qed.

(** X27.  The loop of [quotation_new] that collects the items always
    ends, and it reads the rows [items[0]], [items[1]], ... only up to the
    first index whose product field is missing: two forms that agree on
    the rows below such an index give the same items or the same
    exception.  A row behind a gap in the numbering is ignored. *)
Theorem quotation_items_stop_at_gap form :
  is_Some (quotation_items parse_int parse_float db form)
  /\ forall form' n,
       form !! field n "product_id" = None ->
       form' !! field n "product_id" = None ->
       (forall i name, (i < n)%nat ->
                       form !! field i name = form' !! field i name) ->
       quotation_items parse_int parse_float db form'
       = quotation_items parse_int parse_float db form.
Proof.
  assert (Hends : forall f,
             is_Some (quotation_items parse_int parse_float db f)).
  { intros f. unfold quotation_items.
    apply (collect_items_ends f (S (size f)) f 0); [lia|auto]. }
  split; [apply Hends|].
  intros form' n Hn Hn' Hsame.
  destruct (Hends form) as [r Hr]. destruct (Hends form') as [r' Hr'].
  rewrite Hr, Hr'. unfold quotation_items in *.
  set (fuel := (S (size form) + S (size form'))%nat).
  apply (collect_items_more_fuel _ _ _ _ fuel) in Hr; [|lia].
  apply (collect_items_more_fuel _ _ _ _ fuel) in Hr'; [|lia].
  rewrite (collect_items_agree form form' n fuel 0 Hn Hn' Hsame) in Hr by lia.
  congruence.
Qed.

End Loop.

End QuotationFormFacts.
